(** * pico: the asset upload adapter and the [ls] listing middleware

    A shallow embedding of [filehandlers/assets/handler.go] and
    [wish/list/list.go].  The session context, the database, the object
    storage and the ssh session are threaded explicitly; a trace records
    every call that leaves the package. *)

From Stdlib Require Import String Ascii List ZArith Bool Lia.
From Stdlib Require Import Permutation Sorted.
Import ListNotations.

Local Open Scope string_scope.
Local Open Scope Z_scope.

Set Implicit Arguments.

(** ** Go library functions used by the two files *)

Module GoStrings.

(** The scan behind [strings.Replace(s, old, new, n)] for a non-empty
    [old]: leftmost, non-overlapping occurrences are replaced while the
    budget [n] is not exhausted; a negative budget is unlimited.  [skip]
    counts the bytes of a matched occurrence that are still to be dropped. *)
Fixpoint replaceScan (old new : string) (n : Z) (skip : nat) (s : string)
  : string :=
  match s with
  | EmptyString => EmptyString
  | String c s' =>
      match skip with
      | S k => replaceScan old new n k s'
      | O =>
          if negb (n =? 0) && String.prefix old s
          then new ++ replaceScan old new (if n <? 0 then n else n - 1)
                                  (Nat.pred (String.length old)) s'
          else String c (replaceScan old new n O s')
      end
  end.

(** [strings.Replace].  The library returns [s] at once when [old == new]
    or [n == 0].  For an empty [old] it inserts [new] at rune boundaries;
    neither file calls it that way (both patterns start with a slash), and
    that branch is not modelled: [s] is returned. *)
Definition Replace (s old new : string) (n : Z) : string :=
  if String.eqb old new || (n =? 0) then s
  else match old with
       | EmptyString => s
       | String _ _ => replaceScan old new n O s
       end.

(** [strings.ReplaceAll(s, old, new)] is [Replace(s, old, new, -1)]. *)
Definition ReplaceAll (s old new : string) : string := Replace s old new (-1).

(** [strings.Join]. *)
Definition Join (elems : list string) (sep : string) : string :=
  String.concat sep elems.

End GoStrings.

Module GoSort.

(** Go compares strings byte by byte; [String.leb] is that order. *)
Fixpoint insert (x : string) (l : list string) : list string :=
  match l with
  | [] => [x]
  | y :: l' => if String.leb x y then x :: l else y :: insert x l'
  end.

(** [sort.Strings]: the slice in increasing order.  Equal strings cannot be
    told apart, so the result does not depend on the algorithm. *)
Fixpoint Strings (l : list string) : list string :=
  match l with
  | [] => []
  | x :: l' => insert x (Strings l')
  end.

End GoSort.

Module GoFilepath.

Definition isSep (c : ascii) : bool := Ascii.eqb c "/"%char.

Fixpoint dropWhile (p : ascii -> bool) (l : list ascii) : list ascii :=
  match l with
  | [] => []
  | c :: l' => if p c then dropWhile p l' else l
  end.

Fixpoint takeWhile (p : ascii -> bool) (l : list ascii) : list ascii :=
  match l with
  | [] => []
  | c :: l' => if p c then c :: takeWhile p l' else []
  end.

(** [filepath.Base] on a Unix path: "." for the empty path, trailing
    separators removed, then the part after the last separator, and "/"
    when nothing is left. *)
Definition Base (path : string) : string :=
  if String.eqb path "" then "."
  else
    let r := dropWhile isSep (rev (list_ascii_of_string path)) in
    let last := rev (takeWhile (fun c => negb (isSep c)) r) in
    match last with
    | [] => "/"
    | _ => string_of_list_ascii last
    end.

End GoFilepath.

Module GoIO.

Definition error := string.

(** An [io.Reader] as the sequence of reads it will answer: a chunk of
    bytes, the end of the stream, or a failure.  These are the readers
    that exist: a nil reader, on which [io.ReadAll] panics, is not among
    them, and nothing below speaks of an entry without a reader. *)
Inductive Reader : Type :=
| REOF : Reader
| RChunk : list Byte.byte -> Reader -> Reader
| RFail : error -> Reader.

(** [io.ReadAll]: the bytes read until the end of the stream, with no
    error; or the bytes read so far together with the error met. *)
Fixpoint ReadAll (r : Reader) : list Byte.byte * option error :=
  match r with
  | REOF => ([], None)
  | RChunk b r' => let (bs, e) := ReadAll r' in ((b ++ bs)%list, e)
  | RFail e => ([], Some e)
  end.

(** [binary.Size] of a byte slice is its length. *)
Definition binarySize (b : list Byte.byte) : Z := Z.of_nat (length b).

End GoIO.

Module GoTime.

(** A [time.Time] is kept as its Unix seconds, as [time.Unix(sec, 0)]
    gives it.  The zero [time.Time], which a struct literal leaves in a
    field it does not name, is January 1 of year 1, UTC. *)
Definition zero : Z := -62135596800.

End GoTime.

(** ** Data of the collaborating packages *)

Module db.

Record User : Type := { ID : string; Name : string }.

(** Modelled from the spec: the fields of [db.Project], which is declared
    outside the two files: the owning identity, the name and the display
    name. *)
Record Project : Type :=
  { UserID : string; ProjectName : string; Label : string }.

End db.

Module storage.

Record Bucket : Type := { Name : string }.

End storage.

Module utils.

(** [utils.FileEntry]; the handler holds a pointer to it and overwrites
    [Size]. *)
Record FileEntry : Type :=
  { Filepath : string;
    Mode : Z;
    Size : Z;
    Mtime : Z;
    Reader : GoIO.Reader }.

Definition withSize (e : FileEntry) (n : Z) : FileEntry :=
  {| Filepath := Filepath e; Mode := Mode e; Size := n; Mtime := Mtime e;
     Reader := Reader e |}.

(** [utils.VirtualFile], the [os.FileInfo] of this code base: [Name()] is
    [FName], [IsDir()] is [FIsDir]. *)
Record VirtualFile : Type :=
  { FName : string; FIsDir : bool; FSize : Z; FModTime : Z }.

End utils.

Module shared.

(** Modelled from the spec: [shared.GetProjectName], declared outside the
    two files: "the first path segment" of the entry's logical path, that
    is the text between the leading separator and the next one. *)
Definition GetProjectName (entry : utils.FileEntry) : string :=
  let l := list_ascii_of_string (utils.Filepath entry) in
  let l := match l with
           | c :: l' => if GoFilepath.isSep c then l' else l
           | [] => l
           end in
  string_of_list_ascii
    (GoFilepath.takeWhile (fun c => negb (GoFilepath.isSep c)) l).

End shared.

Definition error := GoIO.error.

(** The payload handed to the storage-write routine. *)
Record FileData : Type :=
  { FileEntry : utils.FileEntry;
    Text : list Byte.byte;
    User : option db.User;
    Bucket : storage.Bucket;
    BucketQuota : Z }.

(** ** The session and its context *)

Module ssh.

(** What the two files read from an [ssh.Session]. *)
Record Session : Type :=
  { User : string; Command : list string; PublicKey : option string }.

End ssh.

Inductive ctxKey : Type :=
| ctxUserKey | ctxBucketKey | ctxBucketQuotaKey | ctxProjectKey.

(** A value stored in the context keeps its dynamic type; pointers may be
    nil ([None]). *)
Inductive ctxValue : Type :=
| VUser : option db.User -> ctxValue
| VBucket : storage.Bucket -> ctxValue
| VQuota : Z -> ctxValue
| VProject : option db.Project -> ctxValue.

(** The context restricted to the four keys of the package; an unset key
    holds the nil interface ([None]). *)
Record SshContext : Type :=
  { slotUser : option ctxValue;
    slotBucket : option ctxValue;
    slotBucketQuota : option ctxValue;
    slotProject : option ctxValue }.

Definition emptyContext : SshContext :=
  {| slotUser := None; slotBucket := None; slotBucketQuota := None;
     slotProject := None |}.

Definition Value (c : SshContext) (k : ctxKey) : option ctxValue :=
  match k with
  | ctxUserKey => slotUser c
  | ctxBucketKey => slotBucket c
  | ctxBucketQuotaKey => slotBucketQuota c
  | ctxProjectKey => slotProject c
  end.

Definition SetValue (c : SshContext) (k : ctxKey) (v : ctxValue)
  : SshContext :=
  match k with
  | ctxUserKey =>
      {| slotUser := Some v; slotBucket := slotBucket c;
         slotBucketQuota := slotBucketQuota c; slotProject := slotProject c |}
  | ctxBucketKey =>
      {| slotUser := slotUser c; slotBucket := Some v;
         slotBucketQuota := slotBucketQuota c; slotProject := slotProject c |}
  | ctxBucketQuotaKey =>
      {| slotUser := slotUser c; slotBucket := slotBucket c;
         slotBucketQuota := Some v; slotProject := slotProject c |}
  | ctxProjectKey =>
      {| slotUser := slotUser c; slotBucket := slotBucket c;
         slotBucketQuota := slotBucketQuota c; slotProject := Some v |}
  end.

(** ** Calls that leave the package *)

Inductive LogArg : Type :=
| LStr : string -> LogArg
| LNum : Z -> LogArg.

Inductive Event : Type :=
| EvFindUserForKey (user key : string)
| EvHasFeatureForUser (userID feature : string)
| EvFindProjectByName (userID name : string)
| EvUpdateProject (userID name : string)
| EvInsertProject (userID name label : string)
| EvGetBucket (name : string)
| EvUpsertBucket (name : string)
| EvGetBucketQuota (bucket : storage.Bucket)
| EvListFiles (bucket : storage.Bucket) (dir : string) (recursive : bool)
| EvGetFile (bucket : storage.Bucket) (fname : string)
| EvWriteAsset (data : FileData)
| EvInfof (format : string) (args : list LogArg)
| EvSessionWrite (p : list Byte.byte)
| EvErrorHandler (err : error).

Definition isProjectStoreCall (e : Event) : bool :=
  match e with
  | EvFindProjectByName _ _ | EvUpdateProject _ _ | EvInsertProject _ _ _ =>
      true
  | _ => false
  end.

Definition isStorageCall (e : Event) : bool :=
  match e with
  | EvGetBucket _ | EvUpsertBucket _ | EvGetBucketQuota _
  | EvListFiles _ _ _ | EvGetFile _ _ | EvWriteAsset _ => true
  | _ => false
  end.

Definition isListFiles (e : Event) : bool :=
  match e with
  | EvListFiles _ _ _ => true
  | _ => false
  end.

(** ** The state threaded through a handler

    [W] is the state of everything outside the package (database, object
    storage, the client's side of the session). *)

Section Interfaces.

Variable W : Type.

Record State : Type :=
  { session : ssh.Session;
    context : SshContext;
    world : W;
    trace : list Event }.

(** A Go call either returns or panics. *)
Inductive Outcome (A : Type) : Type :=
| Returns : A -> Outcome A
| Panics : string -> Outcome A.

Definition M (A : Type) : Type := State -> Outcome A * State.

Definition ret {A : Type} (a : A) : M A := fun s => (Returns a, s).

Definition panic {A : Type} (msg : string) : M A := fun s => (Panics A msg, s).

Definition bind {A B : Type} (m : M A) (f : A -> M B) : M B :=
  fun s =>
    match m s with
    | (Returns a, s') => f a s'
    | (Panics _ msg, s') => (Panics B msg, s')
    end.

(** A call to a collaborator: it is recorded and moves the outside world. *)
Definition call {A : Type} (ev : Event) (op : W -> A * W) : M A :=
  fun s =>
    let (a, w') := op (world s) in
    (Returns a,
     {| session := session s; context := context s; world := w';
        trace := (trace s ++ [ev])%list |}).

Definition getContext : M SshContext := fun s => (Returns (context s), s).

Definition getSession : M ssh.Session := fun s => (Returns (session s), s).

(** [s.Context().SetValue(k, v)]. *)
Definition setValue (k : ctxKey) (v : ctxValue) : M unit :=
  fun s =>
    (Returns tt,
     {| session := session s; context := SetValue (context s) k v;
        world := world s; trace := trace s |}).

(** [db.DB], the methods the handler calls. *)
Record DB : Type :=
  { FindUserForKey :
      string -> string -> W -> (option db.User * option error) * W;
    HasFeatureForUser : string -> string -> W -> bool * W;
    FindProjectByName :
      string -> string -> W -> (option db.Project * option error) * W;
    UpdateProject : string -> string -> W -> option error * W;
    InsertProject :
      string -> string -> string -> W -> (string * option error) * W }.

(** [storage.ObjectStorage], the methods the handler calls. *)
Record ObjectStorage : Type :=
  { GetBucket : string -> W -> (storage.Bucket * option error) * W;
    UpsertBucket : string -> W -> (storage.Bucket * option error) * W;
    GetBucketQuota : storage.Bucket -> W -> (Z * option error) * W;
    ListFiles :
      storage.Bucket -> string -> bool ->
      W -> (list utils.VirtualFile * option error) * W;
    GetFile :
      storage.Bucket -> string -> W -> (GoIO.Reader * option error) * W }.

(** [shared.ConfigSite], the parts the handler uses. *)
Record ConfigSite : Type :=
  { Space : string;
    AssetURL : string -> string -> string -> string }.

Record UploadAssetHandler : Type :=
  { DBPool : DB;
    Cfg : ConfigSite;
    Storage : ObjectStorage }.

(** Functions of the repository declared outside the two files; they are
    taken as given: [util.KeyText], [shared.GetAssetBucketName],
    [shared.GetAssetFileName], the handler's own [writeAsset], and, on the
    session, [Write] and [utils.ErrorHandler]. *)
Class Externals : Type :=
  { KeyText : ssh.Session -> string * option error;
    GetAssetBucketName : string -> string;
    GetAssetFileName : utils.FileEntry -> string;
    writeAsset : FileData -> W -> option error * W;
    sessionWrite : list Byte.byte -> W -> option error * W;
    ErrorHandler : error -> W -> unit * W }.

(** [utils.CopyFromClientHandler], the interface the middleware is given.
    [Write] returns the entry as it leaves it, since it writes through the
    pointer. *)
Record CopyFromClientHandler : Type :=
  { hWrite : utils.FileEntry -> M (utils.FileEntry * (string * option error));
    hRead :
      utils.FileEntry ->
      M (option utils.VirtualFile * option GoIO.Reader * option error);
    hList : string -> M (list utils.VirtualFile * option error);
    hValidate : M (option error) }.

End Interfaces.

Arguments Returns {A} _.
Arguments Panics {A} _.
Arguments ret {W A} _ _.
Arguments panic {W A} _ _.
Arguments getContext {W} _.
Arguments getSession {W} _.
Arguments setValue {W} _ _ _.

Notation "'let*' x ':=' m 'in' k" := (bind m (fun x => k))
  (at level 10, x pattern, m at level 100, k at level 200).

(** ** filehandlers/assets/handler.go *)

Section Handler.

Context {W : Type} {X : Externals W}.

(** Dereferencing a pointer: a nil pointer panics. *)
Definition deref {A : Type} (p : option A) : M W A :=
  match p with
  | Some a => ret a
  | None => panic "invalid memory address or nil pointer dereference"
  end.

Definition getProject : M W (option db.Project) :=
  let* c := getContext in
  match Value c ctxProjectKey with
  | None => ret None
  | Some (VProject project) => ret project
  | Some _ => panic "interface conversion: not *db.Project"
  end.

Definition getBucket : M W (storage.Bucket * option error) :=
  let* c := getContext in
  match Value c ctxBucketKey with
  | Some (VBucket bucket) =>
      if String.eqb (storage.Name bucket) ""
      then ret (bucket,
                Some "bucket not set on `ssh.Context()` for connection")
      else ret (bucket, None)
  | _ => panic "interface conversion: not storage.Bucket"
  end.

Definition getBucketQuota : M W Z :=
  let* c := getContext in
  match Value c ctxBucketQuotaKey with
  | Some (VQuota q) => ret q
  | _ => panic "interface conversion: not uint64"
  end.

Definition getUser : M W (option db.User * option error) :=
  let* c := getContext in
  match Value c ctxUserKey with
  | Some (VUser user) =>
      match user with
      | None =>
          ret (user, Some "user not set on `ssh.Context()` for connection")
      | Some _ => ret (user, None)
      end
  | _ => panic "interface conversion: not *db.User"
  end.

Variable h : UploadAssetHandler W.

Definition Read (entry : utils.FileEntry)
  : M W (option utils.VirtualFile * option GoIO.Reader * option error) :=
  let* (user, err) := getUser in
  match err with
  | Some e => ret (None, None, Some e)
  | None =>
      let fileInfo :=
        {| utils.FName := GoFilepath.Base (utils.Filepath entry);
           utils.FIsDir := false;
           utils.FSize := utils.Size entry;
           utils.FModTime := utils.Mtime entry |} in
      let* u := deref user in
      let name := GetAssetBucketName (db.ID u) in
      let* (bucket, err) :=
        call (EvGetBucket name) (GetBucket (Storage h) name) in
      match err with
      | Some e => ret (None, None, Some e)
      | None =>
          let fname := GetAssetFileName entry in
          let* (contents, err) :=
            call (EvGetFile bucket fname) (GetFile (Storage h) bucket fname) in
          match err with
          | Some e => ret (None, None, Some e)
          | None => ret (Some fileInfo, Some contents, None)
          end
      end
  end.

Definition List (fpath : string)
  : M W (list utils.VirtualFile * option error) :=
  let fileList : list utils.VirtualFile := [] in
  let* (user, err) := getUser in
  match err with
  | Some e => ret (fileList, Some e)
  | None =>
      let cleanFilename := GoFilepath.Base fpath in
      let* u := deref user in
      let bucketName := GetAssetBucketName (db.ID u) in
      let* (bucket, err) :=
        call (EvGetBucket bucketName) (GetBucket (Storage h) bucketName) in
      match err with
      | Some e => ret (fileList, Some e)
      | None =>
          if String.eqb cleanFilename "" || String.eqb cleanFilename "."
          then
            let name := cleanFilename in
            let name := if String.eqb name "" then "/" else name in
            let info :=
              {| utils.FName := name; utils.FIsDir := true;
                 utils.FSize := 0; utils.FModTime := GoTime.zero |} in
            ret ((fileList ++ [info])%list, None)
          else
            let* (fileList, err) :=
              call (EvListFiles bucket fpath false)
                   (ListFiles (Storage h) bucket fpath false) in
            match err with
            | Some e => ret (fileList, Some e)
            | None => ret (fileList, None)
            end
      end
  end.

Definition Validate : M W (option error) :=
  let* s := getSession in
  let '(key, err) := KeyText s in
  match err with
  | Some _ => ret (Some "key not found")
  | None =>
      let* (user, err) :=
        call (EvFindUserForKey (ssh.User s) key)
             (FindUserForKey (DBPool h) (ssh.User s) key) in
      match err with
      | Some e => ret (Some e)
      | None =>
          let* u := deref user in
          if String.eqb (db.Name u) ""
          then ret (Some "must have username set")
          else
            let* has :=
              call (EvHasFeatureForUser (db.ID u) "pgs")
                   (HasFeatureForUser (DBPool h) (db.ID u) "pgs") in
            if negb has
            then ret (Some "you do not have access to this service")
            else
              let assetBucket := GetAssetBucketName (db.ID u) in
              let* (bucket, err) :=
                call (EvUpsertBucket assetBucket)
                     (UpsertBucket (Storage h) assetBucket) in
              match err with
              | Some e => ret (Some e)
              | None =>
                  let* _ := setValue ctxBucketKey (VBucket bucket) in
                  let* (totalFileSize, err) :=
                    call (EvGetBucketQuota bucket)
                         (GetBucketQuota (Storage h) bucket) in
                  match err with
                  | Some e => ret (Some e)
                  | None =>
                      let* _ :=
                        setValue ctxBucketQuotaKey (VQuota totalFileSize) in
                      let* _ :=
                        call (EvInfof "(%s) bucket size is current (%d bytes)"
                                [LStr (db.Name u); LNum totalFileSize])
                             (fun w => (tt, w)) in
                      let* _ := setValue ctxUserKey (VUser user) in
                      let* _ :=
                        call (EvInfof "(%s) attempting to upload files to (%s)"
                                [LStr (db.Name u); LStr (Space (Cfg h))])
                             (fun w => (tt, w)) in
                      ret None
                  end
              end
      end
  end.

(** [origText] of [Write]: the bytes of the stream when [io.ReadAll]
    reports no error, the nil slice otherwise. *)
Definition origTextOf (entry : utils.FileEntry) : list Byte.byte :=
  match GoIO.ReadAll (utils.Reader entry) with
  | (b, None) => b
  | (_, Some _) => []
  end.

Definition Write (entry : utils.FileEntry)
  : M W (utils.FileEntry * (string * option error)) :=
  let* (user, err) := getUser in
  match err with
  | Some e => ret (entry, ("", Some e))
  | None =>
      let origText := origTextOf entry in
      let fileSize := GoIO.binarySize origText in
      let entry := utils.withSize entry fileSize in
      let* (bucket, err) := getBucket in
      match err with
      | Some e => ret (entry, ("", Some e))
      | None =>
          let* hasProject := getProject in
          let projectName := shared.GetProjectName entry in
          let* u := deref user in
          (* the [if hasProject == nil] block; [Some e] is an early return *)
          let* stop :=
            match hasProject with
            | Some _ => ret None
            | None =>
                let* (project, err) :=
                  call (EvFindProjectByName (db.ID u) projectName)
                       (FindProjectByName (DBPool h) (db.ID u) projectName) in
                match err with
                | None =>
                    let* err :=
                      call (EvUpdateProject (db.ID u) projectName)
                           (UpdateProject (DBPool h) (db.ID u) projectName) in
                    match err with
                    | Some e => ret (Some e)
                    | None =>
                        let* _ := setValue ctxProjectKey (VProject project) in
                        ret None
                    end
                | Some _ =>
                    let* (_, err) :=
                      call (EvInsertProject (db.ID u) projectName projectName)
                           (InsertProject (DBPool h) (db.ID u) projectName
                                          projectName) in
                    match err with
                    | Some e => ret (Some e)
                    | None =>
                        let* (project, err) :=
                          call (EvFindProjectByName (db.ID u) projectName)
                               (FindProjectByName (DBPool h) (db.ID u)
                                                  projectName) in
                        match err with
                        | Some e => ret (Some e)
                        | None =>
                            let* _ :=
                              setValue ctxProjectKey (VProject project) in
                            ret None
                        end
                    end
                end
            end in
          match stop with
          | Some e => ret (entry, ("", Some e))
          | None =>
              let* bucketQuota := getBucketQuota in
              let data :=
                {| FileEntry := entry; User := user; Text := origText;
                   Bucket := bucket; BucketQuota := bucketQuota |} in
              let* err := call (EvWriteAsset data) (writeAsset data) in
              match err with
              | Some e => ret (entry, ("", Some e))
              | None =>
                  let url :=
                    AssetURL (Cfg h) (db.Name u) projectName
                      (GoStrings.Replace (utils.Filepath (FileEntry data))
                         ("/" ++ projectName ++ "/") "" 1) in
                  ret (entry, (url, None))
              end
          end
      end
  end.

(** The handler as the interface value passed to the middleware. *)
Definition asCopyFromClientHandler : CopyFromClientHandler W :=
  {| hWrite := Write; hRead := Read; hList := List; hValidate := Validate |}.

(** The files of a session, written one after the other; an error ends
    the command of that file only. *)
Fixpoint Writes (entries : list utils.FileEntry)
  : M W (list (utils.FileEntry * (string * option error))) :=
  match entries with
  | [] => ret []
  | entry :: rest =>
      let* r := Write entry in
      let* rs := Writes rest in
      ret (r :: rs)
  end.

End Handler.

(** ** wish/list/list.go *)

Definition newline : string := String (ascii_of_nat 10) EmptyString.

Section ListMiddleware.

Context {W : Type} {X : Externals W}.

Definition Middleware (writeHandler : CopyFromClientHandler W)
  (sshHandler : M W unit) : M W unit :=
  let* session := getSession in
  let cmd := ssh.Command session in
  if negb ((1 <? Z.of_nat (length cmd))
           && String.eqb (nth 0 cmd "") "command"
           && String.eqb (nth 1 cmd "") "ls")
  then sshHandler
  else
    let* err := hValidate writeHandler in
    match err with
    | Some e => call (EvErrorHandler e) (ErrorHandler e)
    | None =>
        let* (fileList, err) := hList writeHandler "/" in
        match err with
        | Some e => call (EvErrorHandler e) (ErrorHandler e)
        | None =>
            let data :=
              fold_left
                (fun (data : list string) (file : utils.VirtualFile) =>
                   let name :=
                     GoStrings.ReplaceAll (utils.FName file) "/" "" in
                   let name :=
                     if utils.FIsDir file then name ++ "/" else name in
                   (data ++ [name])%list)
                fileList [] in
            let data := GoSort.Strings data in
            let p := list_byte_of_string (GoStrings.Join data newline) in
            let* err := call (EvSessionWrite p) (sessionWrite p) in
            match err with
            | Some e => call (EvErrorHandler e) (ErrorHandler e)
            | None => ret tt
            end
        end
    end.

End ListMiddleware.

(** ** The words of the specification, for comparison with the code *)

Module Spec.

(** A name "stripped of every path-separator character". *)
Definition stripSeparators (name : string) : string :=
  string_of_list_ascii
    (filter (fun c => negb (GoFilepath.isSep c)) (list_ascii_of_string name)).

(** "... with exactly one trailing separator appended iff the entry is a
    directory". *)
Definition listedName (f : utils.VirtualFile) : string :=
  if utils.FIsDir f then stripSeparators (utils.FName f) ++ "/"
  else stripSeparators (utils.FName f).

Definition countSeparators (name : string) : nat :=
  length (filter GoFilepath.isSep (list_ascii_of_string name)).

(** Ascending byte order. *)
Definition ascending (l : list string) : Prop :=
  StronglySorted (fun a b => String.leb a b = true) l.

(** The two-token listing command, exactly. *)
Definition isExactListCommand (cmd : list string) : bool :=
  match cmd with
  | [a; b] => String.eqb a "command" && String.eqb b "ls"
  | _ => false
  end.

(** A command that begins with the two tokens of the listing command. *)
Definition startsWithListCommand (cmd : list string) : bool :=
  match cmd with
  | a :: b :: _ => String.eqb a "command" && String.eqb b "ls"
  | _ => false
  end.

(** Identity, bucket and quota snapshot are cached together or not at all. *)
Definition allOrNothing (c : SshContext) : Prop :=
  (slotUser c = None /\ slotBucket c = None /\ slotBucketQuota c = None)
  \/ (slotUser c <> None /\ slotBucket c <> None /\ slotBucketQuota c <> None).

(** A cached identity comes with a cached bucket and quota snapshot. *)
Definition identityImpliesBucket (c : SshContext) : Prop :=
  slotUser c <> None -> slotBucket c <> None /\ slotBucketQuota c <> None.

End Spec.

(** ** A small deployment to run the handlers on *)

Module Demo.

Record World : Type :=
  { projects : list (string * string);
    files : list utils.VirtualFile;
    stored : list FileData;
    entitled : bool;
    failQuota : bool;
    failUpdate : bool;
    failInsert : bool;
    loseInserts : bool }.

Definition alice : db.User := {| db.ID := "u1"; db.Name := "alice" |}.

Definition nameless : db.User := {| db.ID := "u2"; db.Name := "" |}.

Definition hasProject (w : World) (uid name : string) : bool :=
  existsb (fun p => String.eqb (fst p) uid && String.eqb (snd p) name)
          (projects w).

Definition addProject (w : World) (uid name : string) : World :=
  {| projects := (uid, name) :: projects w; files := files w;
     stored := stored w; entitled := entitled w; failQuota := failQuota w;
     failUpdate := failUpdate w; failInsert := failInsert w;
     loseInserts := loseInserts w |}.

Definition store (w : World) (d : FileData) : World :=
  {| projects := projects w; files := files w;
     stored := (stored w ++ [d])%list; entitled := entitled w;
     failQuota := failQuota w; failUpdate := failUpdate w;
     failInsert := failInsert w; loseInserts := loseInserts w |}.

Definition pool : DB World :=
  {| FindUserForKey := fun _ key w =>
       if String.eqb key "key-alice" then ((Some alice, None), w)
       else if String.eqb key "key-nameless" then ((Some nameless, None), w)
       else ((None, Some "no user found for key"), w);
     HasFeatureForUser := fun _ _ w => (entitled w, w);
     FindProjectByName := fun uid name w =>
       if hasProject w uid name
       then ((Some {| db.UserID := uid; db.ProjectName := name;
                      db.Label := name |}, None), w)
       else ((None, Some "project not found"), w);
     UpdateProject := fun _ _ w =>
       if failUpdate w then (Some "update failed", w) else (None, w);
     InsertProject := fun uid name _ w =>
       if failInsert w then (("", Some "insert failed"), w)
       else if loseInserts w then (("p1", None), w)
       else (("p1", None), addProject w uid name) |}.

Definition st : ObjectStorage World :=
  {| GetBucket := fun name w => (({| storage.Name := name |}, None), w);
     UpsertBucket := fun name w => (({| storage.Name := name |}, None), w);
     GetBucketQuota := fun _ w =>
       if failQuota w then ((0, Some "quota unavailable"), w)
       else ((Z.of_nat (length (stored w)), None), w);
     ListFiles := fun _ _ _ w => ((files w, None), w);
     GetFile := fun _ _ w => ((GoIO.REOF, None), w) |}.

Definition cfg : ConfigSite :=
  {| Space := "pgs";
     AssetURL := fun user project path =>
       "https://" ++ user ++ "-" ++ project ++ ".pgs.sh/" ++ path |}.

Definition handler : UploadAssetHandler World :=
  {| DBPool := pool; Cfg := cfg; Storage := st |}.

#[export] Instance externals : Externals World :=
  {| KeyText := fun s =>
       match ssh.PublicKey s with
       | Some k => (k, None)
       | None => ("", Some "session has no public key")
       end;
     GetAssetBucketName := fun uid => "static-" ++ uid;
     GetAssetFileName := utils.Filepath;
     writeAsset := fun d w => (None, store w d);
     sessionWrite := fun _ w => (None, w);
     ErrorHandler := fun _ w => (tt, w) |}.

Definition world0 : World :=
  {| projects := []; files := []; stored := []; entitled := true;
     failQuota := false; failUpdate := false; failInsert := false;
     loseInserts := false |}.

Definition sessionOf (key : option string) (cmd : list string)
  : ssh.Session :=
  {| ssh.User := "alice"; ssh.Command := cmd; ssh.PublicKey := key |}.

(** A fresh connection. *)
Definition fresh (key : option string) (cmd : list string) (w : World)
  : State World :=
  {| session := sessionOf key cmd; context := emptyContext; world := w;
     trace := [] |}.

(** The state a successful [Validate] leaves behind. *)
Definition validated (w : World) : State World :=
  snd (Validate handler (fresh (Some "key-alice") [] w)).

Definition bytesOf (s : string) : list Byte.byte := list_byte_of_string s.

Definition entryOf (path : string) (declared : Z) (r : GoIO.Reader)
  : utils.FileEntry :=
  {| utils.Filepath := path; utils.Mode := 420; utils.Size := declared;
     utils.Mtime := 0; utils.Reader := r |}.

Definition post1 : utils.FileEntry :=
  entryOf "/blog/post1.md" 999 (GoIO.RChunk (bytesOf "0123456789") GoIO.REOF).

Definition post2 : utils.FileEntry :=
  entryOf "/blog/post2.md" 0
          (GoIO.RChunk (bytesOf "0123456789")
             (GoIO.RChunk (bytesOf "abcdefghij") GoIO.REOF)).

Definition other : utils.FileEntry :=
  entryOf "/wiki/index.html" 3 (GoIO.RChunk (bytesOf "abc") GoIO.REOF).

Definition broken : utils.FileEntry :=
  entryOf "/blog/broken.md" 10
          (GoIO.RChunk (bytesOf "0123") (GoIO.RFail "connection reset")).

Definition withFlags (fq fu fi li ent : bool) : World :=
  {| projects := []; files := []; stored := []; entitled := ent;
     failQuota := fq; failUpdate := fu; failInsert := fi;
     loseInserts := li |}.

Definition withFiles (fs : list utils.VirtualFile) : World :=
  {| projects := []; files := fs; stored := []; entitled := true;
     failQuota := false; failUpdate := false; failInsert := false;
     loseInserts := false |}.

Definition withProject (uid name : string) (fu : bool) : World :=
  {| projects := [(uid, name)]; files := []; stored := []; entitled := true;
     failQuota := false; failUpdate := fu; failInsert := false;
     loseInserts := false |}.

Definition blog : db.Project :=
  {| db.UserID := "u1"; db.ProjectName := "blog"; db.Label := "blog" |}.

Definition bucket1 : storage.Bucket := {| storage.Name := "static-u1" |}.

(** The payload [Write] builds for [entry] on alice's session. *)
Definition payload (entry : utils.FileEntry) (text : list Byte.byte)
  : FileData :=
  {| FileEntry := utils.withSize entry (Z.of_nat (length text));
     Text := text; User := Some alice; Bucket := bucket1; BucketQuota := 0 |}.

(** A sibling command handler that leaves a mark in the trace. *)
Definition next : M World unit :=
  call (EvInfof "next handler" []) (fun w => (tt, w)).

Definition dir (name : string) : utils.VirtualFile :=
  {| utils.FName := name; utils.FIsDir := true; utils.FSize := 0;
     utils.FModTime := 0 |}.

Definition file (name : string) : utils.VirtualFile :=
  {| utils.FName := name; utils.FIsDir := false; utils.FSize := 1;
     utils.FModTime := 0 |}.

Definition listing : list utils.VirtualFile :=
  [file "index.html"; dir "blog/"; file "a/b.txt"; dir "assets"].

(** A deployment whose quota read fails. *)
Definition quotaDown : World := withFlags true false false false true.

(** A deployment on which alice lacks the feature. *)
Definition notEntitled : World := withFlags false false false false false.

(** Deployments on which the project store fails. *)
Definition updateDown : World := withProject "u1" "blog" true.

Definition insertDown : World := withFlags false false true false true.

Definition refetchDown : World := withFlags false false false true true.

End Demo.

(** ** Observations on a state and its trace *)

(** The project a session holds: a non-nil pointer under the project key. *)
Definition cachedProject (c : SshContext) : option db.Project :=
  match slotProject c with
  | Some (VProject p) => p
  | _ => None
  end.

(** The identity a session holds. *)
Definition cachedUser (c : SshContext) : option db.User :=
  match slotUser c with
  | Some (VUser u) => u
  | _ => None
  end.

Definition projectStoreCalls (tr : list Event) : list Event :=
  filter isProjectStoreCall tr.

Definition storageCalls (tr : list Event) : list Event :=
  filter isStorageCall tr.

Ltac unfold_monad :=
  cbv beta iota delta
    [bind ret panic call getContext getSession setValue deref
     getUser getBucket getProject getBucketQuota Value] in *.

(** Case analysis on every scrutinee left in hypothesis [H], innermost
    first. *)
Ltac split_cases H :=
  repeat (cbv beta iota in H;
          cbn [context world trace session SetValue
               slotUser slotBucket slotBucketQuota slotProject] in H;
          match type of H with
          | context [match ?x with _ => _ end] =>
              lazymatch x with
              | context [match _ with _ => _ end] => fail
              | _ => destruct x eqn:?; try discriminate; try congruence
              end
          end);
  cbv beta iota in H.

(** One step of symbolic execution in the goal. *)
Ltac step :=
  cbv beta iota;
  cbn [context world trace session SetValue
       slotUser slotBucket slotBucketQuota slotProject].

Ltac finish_run H :=
  inversion H; subst; clear H; cbn [context trace world session] in *.

(** The three ways through the [if hasProject == nil] block of [Write] that
    do not return early, for identity [u] and project name [name], from
    context [c] and outside world [w]: the calls made, and the context and
    world left behind. *)
Inductive ProjectResolved {W : Type} (h : UploadAssetHandler W)
  (u : db.User) (name : string) (c : SshContext) (w : W)
  : list Event -> SshContext -> W -> Prop :=
| ResolvedCached : forall p,
    cachedProject c = Some p ->
    ProjectResolved h u name c w [] c w
| ResolvedUpdated : forall project w1 w2,
    slotProject c = None \/ slotProject c = Some (VProject None) ->
    FindProjectByName (DBPool h) (db.ID u) name w = ((project, None), w1) ->
    UpdateProject (DBPool h) (db.ID u) name w1 = (None, w2) ->
    ProjectResolved h u name c w
      [EvFindProjectByName (db.ID u) name; EvUpdateProject (db.ID u) name]
      (SetValue c ctxProjectKey (VProject project)) w2
| ResolvedInserted : forall p0 e0 id project w1 w2 w3,
    slotProject c = None \/ slotProject c = Some (VProject None) ->
    FindProjectByName (DBPool h) (db.ID u) name w = ((p0, Some e0), w1) ->
    InsertProject (DBPool h) (db.ID u) name name w1 = ((id, None), w2) ->
    FindProjectByName (DBPool h) (db.ID u) name w2 = ((project, None), w3) ->
    ProjectResolved h u name c w
      [EvFindProjectByName (db.ID u) name;
       EvInsertProject (db.ID u) name name;
       EvFindProjectByName (db.ID u) name]
      (SetValue c ctxProjectKey (VProject project)) w3.

(** The three ways through the same block that return early with error
    [e]: the calls made and the world left behind. *)
Inductive ProjectResolutionFails {W : Type} (h : UploadAssetHandler W)
  (u : db.User) (name : string) (c : SshContext) (w : W)
  : error -> list Event -> W -> Prop :=
| UpdateFails : forall project e w1 w2,
    slotProject c = None \/ slotProject c = Some (VProject None) ->
    FindProjectByName (DBPool h) (db.ID u) name w = ((project, None), w1) ->
    UpdateProject (DBPool h) (db.ID u) name w1 = (Some e, w2) ->
    ProjectResolutionFails h u name c w e
      [EvFindProjectByName (db.ID u) name; EvUpdateProject (db.ID u) name] w2
| InsertFails : forall p0 e0 id e w1 w2,
    slotProject c = None \/ slotProject c = Some (VProject None) ->
    FindProjectByName (DBPool h) (db.ID u) name w = ((p0, Some e0), w1) ->
    InsertProject (DBPool h) (db.ID u) name name w1 = ((id, Some e), w2) ->
    ProjectResolutionFails h u name c w e
      [EvFindProjectByName (db.ID u) name;
       EvInsertProject (db.ID u) name name] w2
| RefetchFails : forall p0 e0 id project e w1 w2 w3,
    slotProject c = None \/ slotProject c = Some (VProject None) ->
    FindProjectByName (DBPool h) (db.ID u) name w = ((p0, Some e0), w1) ->
    InsertProject (DBPool h) (db.ID u) name name w1 = ((id, None), w2) ->
    FindProjectByName (DBPool h) (db.ID u) name w2 = ((project, Some e), w3) ->
    ProjectResolutionFails h u name c w e
      [EvFindProjectByName (db.ID u) name;
       EvInsertProject (db.ID u) name name;
       EvFindProjectByName (db.ID u) name] w3.

(** A session after a successful [Validate]: identity [u], bucket [b] and
    quota snapshot [q] are cached. *)
Definition Validated (c : SshContext) (u : db.User) (b : storage.Bucket)
  (q : Z) : Prop :=
  slotUser c = Some (VUser (Some u))
  /\ slotBucket c = Some (VBucket b)
  /\ storage.Name b <> ""
  /\ slotBucketQuota c = Some (VQuota q).

(** ** The rest of the handler's file *)

Definition NewUploadAssetHandler {W : Type} (dbpool : DB W)
  (cfg : ConfigSite) (storage : ObjectStorage W) : UploadAssetHandler W :=
  {| DBPool := dbpool; Cfg := cfg; Storage := storage |}.

(** Every slot of the context is unset or holds a value of the type its
    getter asserts, the identity is not a nil pointer, and an identity is
    cached only together with a bucket and a quota snapshot. *)
Definition slotsTyped (c : SshContext) : bool :=
  match slotUser c with
  | None => true
  | Some (VUser (Some _)) =>
      match slotBucket c, slotBucketQuota c with
      | Some _, Some _ => true
      | _, _ => false
      end
  | Some _ => false
  end
  && match slotBucket c with
     | None | Some (VBucket _) => true
     | Some _ => false
     end
  && match slotBucketQuota c with
     | None | Some (VQuota _) => true
     | Some _ => false
     end
  && match slotProject c with
     | None | Some (VProject _) => true
     | Some _ => false
     end.

(** The payload of a storage write recorded in the trace. *)
Definition writtenPayload (e : Event) : option FileData :=
  match e with
  | EvWriteAsset d => Some d
  | _ => None
  end.

Definition isSessionWrite (e : Event) : bool :=
  match e with
  | EvSessionWrite _ => true
  | _ => false
  end.

(** The metadata [Read] builds from the entry it is given. *)
Definition fileInfoOf (entry : utils.FileEntry) : utils.VirtualFile :=
  {| utils.FName := GoFilepath.Base (utils.Filepath entry);
     utils.FIsDir := false;
     utils.FSize := utils.Size entry;
     utils.FModTime := utils.Mtime entry |}.

(** ** A deployment whose collaborators answer from a script *)

Module Script.

Record World : Type :=
  { user : option db.User * option error;
    feature : bool;
    found : option db.Project * option error;
    updated : option error;
    inserted : string * option error;
    bucket : storage.Bucket * option error;
    upserted : storage.Bucket * option error;
    quota : Z * option error;
    listed : list utils.VirtualFile * option error;
    contents : GoIO.Reader * option error;
    written : option error;
    sent : option error }.

Definition pool : DB World :=
  {| FindUserForKey := fun _ _ w => (user w, w);
     HasFeatureForUser := fun _ _ w => (feature w, w);
     FindProjectByName := fun _ _ w => (found w, w);
     UpdateProject := fun _ _ w => (updated w, w);
     InsertProject := fun _ _ _ w => (inserted w, w) |}.

Definition st : ObjectStorage World :=
  {| GetBucket := fun _ w => (bucket w, w);
     UpsertBucket := fun _ w => (upserted w, w);
     GetBucketQuota := fun _ w => (quota w, w);
     ListFiles := fun _ _ _ w => (listed w, w);
     GetFile := fun _ _ w => (contents w, w) |}.

Definition handler : UploadAssetHandler World :=
  NewUploadAssetHandler pool Demo.cfg st.

#[export] Instance externals : Externals World :=
  {| KeyText := fun s =>
       match ssh.PublicKey s with
       | Some k => (k, None)
       | None => ("", Some "session has no public key")
       end;
     GetAssetBucketName := fun uid => "static-" ++ uid;
     GetAssetFileName := utils.Filepath;
     writeAsset := fun _ w => (written w, w);
     sessionWrite := fun _ w => (sent w, w);
     ErrorHandler := fun _ w => (tt, w) |}.

(** Everything works: alice is found and entitled, her project exists. *)
Definition good : World :=
  {| user := (Some Demo.alice, None);
     feature := true;
     found := (Some Demo.blog, None);
     updated := None;
     inserted := ("p1", None);
     bucket := (Demo.bucket1, None);
     upserted := (Demo.bucket1, None);
     quota := (42, None);
     listed := (Demo.listing, None);
     contents := (GoIO.RChunk (Demo.bytesOf "0123456789") GoIO.REOF, None);
     written := None;
     sent := None |}.

Definition withUser (r : option db.User * option error) : World :=
  {| user := r; feature := feature good; found := found good;
     updated := updated good; inserted := inserted good;
     bucket := bucket good; upserted := upserted good; quota := quota good;
     listed := listed good; contents := contents good;
     written := written good; sent := sent good |}.

Definition withBucket (r : storage.Bucket * option error) : World :=
  {| user := user good; feature := feature good; found := found good;
     updated := updated good; inserted := inserted good;
     bucket := r; upserted := upserted good; quota := quota good;
     listed := listed good; contents := contents good;
     written := written good; sent := sent good |}.

Definition withUpserted (r : storage.Bucket * option error) : World :=
  {| user := user good; feature := feature good; found := found good;
     updated := updated good; inserted := inserted good;
     bucket := bucket good; upserted := r; quota := quota good;
     listed := listed good; contents := contents good;
     written := written good; sent := sent good |}.

Definition withQuota (r : Z * option error) : World :=
  {| user := user good; feature := feature good; found := found good;
     updated := updated good; inserted := inserted good;
     bucket := bucket good; upserted := upserted good; quota := r;
     listed := listed good; contents := contents good;
     written := written good; sent := sent good |}.

Definition withListed (r : list utils.VirtualFile * option error) : World :=
  {| user := user good; feature := feature good; found := found good;
     updated := updated good; inserted := inserted good;
     bucket := bucket good; upserted := upserted good; quota := quota good;
     listed := r; contents := contents good;
     written := written good; sent := sent good |}.

Definition withContents (r : GoIO.Reader * option error) : World :=
  {| user := user good; feature := feature good; found := found good;
     updated := updated good; inserted := inserted good;
     bucket := bucket good; upserted := upserted good; quota := quota good;
     listed := listed good; contents := r;
     written := written good; sent := sent good |}.

Definition withWritten (r : option error) : World :=
  {| user := user good; feature := feature good; found := found good;
     updated := updated good; inserted := inserted good;
     bucket := bucket good; upserted := upserted good; quota := quota good;
     listed := listed good; contents := contents good;
     written := r; sent := sent good |}.

Definition withFeature (b : bool) : World :=
  {| user := user good; feature := b; found := found good;
     updated := updated good; inserted := inserted good;
     bucket := bucket good; upserted := upserted good; quota := quota good;
     listed := listed good; contents := contents good;
     written := written good; sent := sent good |}.

Definition fresh (key : option string) (cmd : list string) (w : World)
  : State World :=
  {| session := Demo.sessionOf key cmd; context := emptyContext; world := w;
     trace := [] |}.

(** The state [Validate] leaves behind on [w]. *)
Definition validated (w : World) : State World :=
  snd (Validate handler (fresh (Some "key-alice") [] w)).

Definition unnamed : storage.Bucket := {| storage.Name := "" |}.

End Script.

(** * Properties *)

(** ** The Go library functions *)

Module GoFacts.

Import GoStrings GoSort GoFilepath.

Lemma prefix_app (p r : string) : String.prefix p (p ++ r) = true.
Proof.
  induction p as [|c p IH]; simpl.
  - destruct r; reflexivity.
  - destruct (ascii_dec c c) as [_|n]; [exact IH | now elim n].
Qed.

Lemma replaceScan_exhausted (old new s : string) :
  replaceScan old new 0 O s = s.
Proof.
  induction s as [|c s IH]; simpl; [reflexivity|].
  now rewrite IH.
Qed.

Lemma replaceScan_skip (old new p r : string) (n : Z) :
  replaceScan old new n (String.length p) (p ++ r) = replaceScan old new n O r.
Proof.
  induction p as [|c p IH]; simpl; [reflexivity | exact IH].
Qed.

(** An occurrence at the very start is the one that [Replace] with budget 1
    removes, and nothing after it is touched. *)
Lemma Replace_leading (c : ascii) (p rest : string) :
  Replace (String c p ++ rest) (String c p) "" 1 = rest.
Proof.
  unfold Replace.
  change (String.eqb (String c p) "") with false.
  cbn [orb Z.eqb].
  change (String c p ++ rest) with (String c (p ++ rest)).
  cbn [replaceScan].
  change (String c (p ++ rest)) with (String c p ++ rest).
  rewrite prefix_app.
  cbn [negb Z.eqb andb Z.ltb Z.compare Z.sub Z.add Z.opp Z.pos_sub
       String.length Nat.pred append].
  rewrite replaceScan_skip.
  apply replaceScan_exhausted.
Qed.

Lemma replaceScan_slash (s : string) :
  replaceScan "/" "" (-1) O s = Spec.stripSeparators s.
Proof.
  unfold Spec.stripSeparators.
  induction s as [|c s IH]; [reflexivity|].
  cbn [replaceScan list_ascii_of_string filter].
  unfold isSep at 1.
  cbn [Z.eqb negb andb String.prefix String.length Nat.pred Z.ltb Z.compare].
  destruct (ascii_dec "/" c) as [e|n].
  - subst c. rewrite Ascii.eqb_refl. cbn [negb].
    replace (String.prefix "" s) with true by (destruct s; reflexivity).
    cbn [append]. exact IH.
  - replace (Ascii.eqb c "/") with false
      by (symmetry; apply Ascii.eqb_neq; congruence).
    cbn [negb string_of_list_ascii]. now rewrite IH.
Qed.

(** [strings.ReplaceAll(name, "/", "")] drops every separator and nothing
    else. *)
Lemma ReplaceAll_slash (s : string) :
  ReplaceAll s "/" "" = Spec.stripSeparators s.
Proof. unfold ReplaceAll, Replace. cbn. apply replaceScan_slash. Qed.

Lemma append_assoc (a b c : string) : (a ++ b) ++ c = a ++ b ++ c.
Proof. induction a as [|x a IH]; simpl; [reflexivity | now rewrite IH]. Qed.

Lemma list_ascii_app (a b : string) :
  list_ascii_of_string (a ++ b)
  = (list_ascii_of_string a ++ list_ascii_of_string b)%list.
Proof. induction a as [|c a IH]; simpl; [reflexivity | now rewrite IH]. Qed.

Lemma stripSeparators_clean (s : string) :
  Spec.countSeparators (Spec.stripSeparators s) = O.
Proof.
  unfold Spec.countSeparators, Spec.stripSeparators.
  rewrite list_ascii_of_string_of_list_ascii.
  induction (list_ascii_of_string s) as [|c l IH]; [reflexivity|].
  simpl. destruct (isSep c) eqn:E; simpl; [exact IH|].
  now rewrite E.
Qed.

Lemma countSeparators_app (a b : string) :
  Spec.countSeparators (a ++ b)
  = (Spec.countSeparators a + Spec.countSeparators b)%nat.
Proof.
  unfold Spec.countSeparators.
  now rewrite list_ascii_app, filter_app, length_app.
Qed.

(** A listed name holds one separator when the entry is a directory, and
    none otherwise. *)
Lemma listedName_separators (f : utils.VirtualFile) :
  Spec.countSeparators (Spec.listedName f)
  = if utils.FIsDir f then 1%nat else 0%nat.
Proof.
  unfold Spec.listedName. destruct (utils.FIsDir f).
  - rewrite countSeparators_app, stripSeparators_clean. reflexivity.
  - apply stripSeparators_clean.
Qed.

Lemma compare_le_trans (a b c : string) :
  String.compare a b <> Gt -> String.compare b c <> Gt ->
  String.compare a c <> Gt.
Proof.
  revert b c. induction a as [|x a IH]; intros [|y b] [|z c]; simpl;
    try congruence.
  unfold Ascii.compare.
  destruct (N.compare_spec (N_of_ascii x) (N_of_ascii y)) as [e1|l1|g1];
    destruct (N.compare_spec (N_of_ascii y) (N_of_ascii z)) as [e2|l2|g2];
    intros H1 H2; try congruence.
  - rewrite e1, e2 in *. rewrite N.compare_refl. now apply IH with b.
  - replace (N_of_ascii x ?= N_of_ascii z)%N with Lt; [congruence|].
    symmetry. apply N.compare_lt_iff. lia.
  - replace (N_of_ascii x ?= N_of_ascii z)%N with Lt; [congruence|].
    symmetry. apply N.compare_lt_iff. lia.
  - replace (N_of_ascii x ?= N_of_ascii z)%N with Lt; [congruence|].
    symmetry. apply N.compare_lt_iff. lia.
Qed.

Lemma leb_trans (a b c : string) :
  String.leb a b = true -> String.leb b c = true -> String.leb a c = true.
Proof.
  unfold String.leb. intros H1 H2.
  assert (N1 : String.compare a b <> Gt)
    by (destruct (String.compare a b); congruence).
  assert (N2 : String.compare b c <> Gt)
    by (destruct (String.compare b c); congruence).
  pose proof (compare_le_trans _ _ _ N1 N2) as N3.
  destruct (String.compare a c); congruence.
Qed.

Lemma insert_perm (x : string) (l : list string) :
  Permutation (insert x l) (x :: l).
Proof.
  induction l as [|y l IH]; simpl; [reflexivity|].
  destruct (String.leb x y); [reflexivity|].
  rewrite IH. apply perm_swap.
Qed.

Lemma Strings_perm (l : list string) : Permutation (Strings l) l.
Proof.
  induction l as [|x l IH]; simpl; [reflexivity|].
  rewrite insert_perm. now constructor.
Qed.

Lemma insert_sorted (x : string) (l : list string) :
  Spec.ascending l -> Spec.ascending (insert x l).
Proof.
  unfold Spec.ascending.
  induction l as [|y l IH]; intros Hs; simpl.
  - repeat constructor.
  - inversion Hs as [|? ? Hl Hy]; subst.
    destruct (String.leb x y) eqn:E.
    + constructor; [exact Hs|].
      constructor; [exact E|].
      eapply Forall_impl; [|exact Hy].
      intros z Hz. now apply leb_trans with y.
    + constructor; [now apply IH|].
      assert (Hyx : String.leb y x = true)
        by (destruct (String.leb_total x y); congruence).
      eapply Permutation_Forall; [symmetry; apply insert_perm|].
      now constructor.
Qed.

Lemma Strings_sorted (l : list string) : Spec.ascending (Strings l).
Proof.
  induction l as [|x l IH]; simpl; [constructor | now apply insert_sorted].
Qed.

Lemma string_of_list_ascii_nonempty (c : ascii) (l : list ascii) :
  string_of_list_ascii (c :: l) <> "".
Proof. discriminate. Qed.

(** [filepath.Base] never returns the empty string. *)
Lemma Base_nonempty (path : string) : Base path <> "".
Proof.
  unfold Base. destruct (String.eqb path ""); [discriminate|].
  destruct (rev (takeWhile (fun c => negb (isSep c))
                   (dropWhile isSep (rev (list_ascii_of_string path)))));
    [discriminate | apply string_of_list_ascii_nonempty].
Qed.

Example Base_of_root : Base "/" = "/".
Proof. reflexivity. Qed.

Example Base_of_empty : Base "" = ".".
Proof. reflexivity. Qed.

Example Base_of_file : Base "/blog/post1.md" = "post1.md".
Proof. reflexivity. Qed.

Example Base_of_dir : Base "/blog/" = "blog".
Proof. reflexivity. Qed.

Example Replace_first_occurrence :
  Replace "/blog/a/blog/b" "/blog/" "" 1 = "a/blog/b".
Proof. reflexivity. Qed.

Example ReplaceAll_slashes : ReplaceAll "/a/b//c" "/" "" = "abc".
Proof. reflexivity. Qed.

Example Strings_byte_order :
  Strings ["b"; "a/"; "a"; "B"] = ["B"; "a"; "a/"; "b"].
Proof. reflexivity. Qed.

Example ReadAll_partial :
  GoIO.ReadAll (utils.Reader Demo.broken)
  = (Demo.bytesOf "0123", Some "connection reset").
Proof. reflexivity. Qed.

Lemma takeWhile_app_stop (p : ascii -> bool) (a : list ascii) (c : ascii)
  (r : list ascii) :
  forallb p a = true -> p c = false -> takeWhile p (a ++ c :: r)%list = a.
Proof.
  intros Ha Hc. induction a as [|x a IH]; simpl in *.
  - now rewrite Hc.
  - apply andb_true_iff in Ha. destruct Ha as [Hx Ha].
    rewrite Hx. now rewrite IH.
Qed.

(** The project name of [/seg/rest] is [seg]. *)
Lemma GetProjectName_first_segment (e : utils.FileEntry) (seg rest : string) :
  utils.Filepath e = "/" ++ seg ++ "/" ++ rest ->
  Spec.countSeparators seg = O ->
  shared.GetProjectName e = seg.
Proof.
  intros Hp Hs. unfold shared.GetProjectName. rewrite Hp.
  cbn [append list_ascii_of_string].
  change (isSep "/") with true. cbv iota.
  rewrite list_ascii_app. cbn [append list_ascii_of_string].
  rewrite takeWhile_app_stop.
  - apply string_of_list_ascii_of_string.
  - unfold Spec.countSeparators in Hs.
    induction (list_ascii_of_string seg) as [|c l IH]; [reflexivity|].
    simpl in *. destruct (isSep c); simpl in *; [discriminate|].
    now apply IH.
  - reflexivity.
Qed.

End GoFacts.

(** ** The upload handler *)

Section HandlerFacts.

Context {W : Type} {X : Externals W}.

Variable h : UploadAssetHandler W.

Lemma projectStoreCalls_app (a b : list Event) :
  projectStoreCalls (a ++ b) = (projectStoreCalls a ++ projectStoreCalls b)%list.
Proof. apply filter_app. Qed.

(** With a project cached, [Write] consults the project store no more
    and leaves the context as it is. *)
Lemma Write_reuses_cached_project (entry : utils.FileEntry) (s s' : State W)
  (p : db.Project) r :
  cachedProject (context s) = Some p ->
  Write h entry s = (r, s') ->
  context s' = context s
  /\ projectStoreCalls (trace s') = projectStoreCalls (trace s).
Proof.
  unfold cachedProject, Write. intros Hp H. unfold_monad.
  destruct (slotProject (context s)) as [[| | |[q|]]|] eqn:E;
    try discriminate.
  split_cases H; finish_run H; split; try reflexivity;
    rewrite ?projectStoreCalls_app, ?app_nil_r; cbn; now rewrite ?app_nil_r.
Qed.

Lemma Writes_reuse_cached_project (entries : list utils.FileEntry) :
  forall (s s' : State W) (p : db.Project) r,
    cachedProject (context s) = Some p ->
    Writes h entries s = (r, s') ->
    context s' = context s
    /\ projectStoreCalls (trace s') = projectStoreCalls (trace s).
Proof.
  induction entries as [|entry rest IH]; intros s s' p r Hp H.
  - inversion H; subst. now split.
  - cbn [Writes] in H. unfold bind at 1 in H.
    destruct (Write h entry s) as [r1 s1] eqn:E1.
    destruct (Write_reuses_cached_project entry s Hp E1) as [Hc Ht].
    destruct r1 as [a|msg].
    + unfold bind at 1 in H.
      destruct (Writes h rest s1) as [r2 s2] eqn:E2.
      rewrite <- Hc in Hp.
      destruct (IH s1 s2 p r2 Hp E2) as [Hc2 Ht2].
      assert (s' = s2) by (destruct r2; inversion H; reflexivity).
      subst s'. split; congruence.
    + inversion H; subst. now split.
Qed.

Lemma GetProjectName_withSize (entry : utils.FileEntry) (n : Z) :
  shared.GetProjectName (utils.withSize entry n) = shared.GetProjectName entry.
Proof. reflexivity. Qed.

(** The first [Write] of a session that ends with a project cached has
    made one lookup followed by an update, or one lookup, an insert and
    the re-fetch. *)
Lemma Write_resolves_project (entry : utils.FileEntry) (s s1 : State W)
  (p : db.Project) r :
  cachedProject (context s) = None ->
  Write h entry s = (r, s1) ->
  cachedProject (context s1) = Some p ->
  exists u,
    cachedUser (context s) = Some u
    /\ (projectStoreCalls (trace s1)
        = (projectStoreCalls (trace s)
           ++ [EvFindProjectByName (db.ID u) (shared.GetProjectName entry);
               EvUpdateProject (db.ID u) (shared.GetProjectName entry)])%list
        \/ projectStoreCalls (trace s1)
           = (projectStoreCalls (trace s)
              ++ [EvFindProjectByName (db.ID u) (shared.GetProjectName entry);
                  EvInsertProject (db.ID u) (shared.GetProjectName entry)
                                  (shared.GetProjectName entry);
                  EvFindProjectByName (db.ID u)
                                      (shared.GetProjectName entry)])%list).
Proof.
  unfold Write. intros Hn H Hc. unfold_monad.
  split_cases H; finish_run H; try congruence;
    rewrite ?GetProjectName_withSize in *;
    match goal with
    | E : slotUser (context s) = Some (VUser (Some ?u)) |- _ =>
        exists u; split; [unfold cachedUser; now rewrite E|]
    end;
    rewrite ?projectStoreCalls_app; cbn [projectStoreCalls filter
      isProjectStoreCall app]; rewrite ?app_nil_r, <- ?app_assoc;
    cbn [app]; auto.
Qed.

(** C1, as the code has it.  In a session whose first file write resolves
    and caches a project, the project store is consulted by that first
    write only: the calls made over all the writes of the session are one
    lookup and an update, or one lookup, an insert and a re-fetch, all for
    the project name of the first file, whatever the paths of the later
    files; the project cached by the first write is still the cached one
    at the end. *)
Theorem Writes_resolve_project_once (entry : utils.FileEntry)
  (entries : list utils.FileEntry) (s s2 : State W) (p : db.Project) r :
  cachedProject (context s) = None ->
  cachedProject (context (snd (Write h entry s))) = Some p ->
  Writes h (entry :: entries) s = (r, s2) ->
  exists u,
    cachedUser (context s) = Some u
    /\ cachedProject (context s2) = Some p
    /\ (projectStoreCalls (trace s2)
        = (projectStoreCalls (trace s)
           ++ [EvFindProjectByName (db.ID u) (shared.GetProjectName entry);
               EvUpdateProject (db.ID u) (shared.GetProjectName entry)])%list
        \/ projectStoreCalls (trace s2)
           = (projectStoreCalls (trace s)
              ++ [EvFindProjectByName (db.ID u) (shared.GetProjectName entry);
                  EvInsertProject (db.ID u) (shared.GetProjectName entry)
                                  (shared.GetProjectName entry);
                  EvFindProjectByName (db.ID u)
                                      (shared.GetProjectName entry)])%list).
Proof.
  intros Hn Hc H.
  cbn [Writes] in H. unfold bind at 1 in H.
  destruct (Write h entry s) as [r1 s1] eqn:E1. cbn [snd] in Hc.
  destruct (Write_resolves_project entry s Hn E1 Hc) as (u & Hu & Hcalls).
  exists u. split; [exact Hu|].
  assert (Hrest : context s2 = context s1
                  /\ projectStoreCalls (trace s2)
                     = projectStoreCalls (trace s1)).
  { destruct r1 as [a|msg].
    - unfold bind at 1 in H.
      destruct (Writes h entries s1) as [r2 s2'] eqn:E2.
      assert (s2 = s2') by (destruct r2; inversion H; reflexivity).
      subst s2'. exact (Writes_reuse_cached_project entries s1 Hc E2).
    - inversion H; subst. now split. }
  destruct Hrest as [Hctx Htr]. rewrite Hctx, Htr. now split.
Qed.

(** What a successful [Write] has done. *)
Lemma Write_success (entry e' : utils.FileEntry) (url : string)
  (s s' : State W) :
  Write h entry s = (Returns (e', (url, None)), s') ->
  exists u b q tr,
    cachedUser (context s) = Some u
    /\ slotBucket (context s) = Some (VBucket b)
    /\ slotBucketQuota (context s) = Some (VQuota q)
    /\ e' = utils.withSize entry (Z.of_nat (length (origTextOf entry)))
    /\ url = AssetURL (Cfg h) (db.Name u) (shared.GetProjectName entry)
               (GoStrings.Replace (utils.Filepath entry)
                  ("/" ++ shared.GetProjectName entry ++ "/") "" 1)
    /\ trace s'
       = (tr ++ [EvWriteAsset
                   {| FileEntry := e'; Text := origTextOf entry;
                      User := Some u; Bucket := b; BucketQuota := q |}])%list.
Proof.
  unfold Write. intros H. unfold_monad.
  split_cases H; finish_run H;
    match goal with
    | E : slotUser (context s) = Some (VUser (Some ?u)),
      B : slotBucket (context s) = Some (VBucket ?b),
      Q : slotBucketQuota (context s) = Some (VQuota ?q) |- _ =>
        exists u, b, q; eexists;
        repeat split; try eassumption; try reflexivity;
        unfold cachedUser; now rewrite E
    end.
Qed.

(** On a validated session whose project is cached or resolves, and whose
    storage write succeeds, [Write] succeeds. *)
Lemma Write_succeeds (entry : utils.FileEntry) (s : State W)
  (u : db.User) (b : storage.Bucket) (q : Z)
  (evs : list Event) (c1 : SshContext) (w1 w2 : W) :
  Validated (context s) u b q ->
  ProjectResolved h u (shared.GetProjectName entry) (context s) (world s)
                  evs c1 w1 ->
  let e' := utils.withSize entry (Z.of_nat (length (origTextOf entry))) in
  let d := {| FileEntry := e'; Text := origTextOf entry; User := Some u;
              Bucket := b; BucketQuota := q |} in
  writeAsset d w1 = (None, w2) ->
  Write h entry s
  = (Returns (e', (AssetURL (Cfg h) (db.Name u) (shared.GetProjectName entry)
                     (GoStrings.Replace (utils.Filepath entry)
                        ("/" ++ shared.GetProjectName entry ++ "/") "" 1),
                   None)),
     {| session := session s; context := c1; world := w2;
        trace := (trace s ++ evs ++ [EvWriteAsset d])%list |}).
Proof.
  intros (Hu & Hb & Hn & Hq) Hres e' d Hw. subst e' d.
  apply String.eqb_neq in Hn.
  unfold Write. unfold_monad. unfold GoIO.binarySize.
  rewrite !GetProjectName_withSize.
  destruct s as [sess c w tr]. cbn [context world trace session] in *.
  rewrite Hu; step. rewrite Hb; step. rewrite Hn; step.
  inversion Hres as [p Hp | project wa wb Hs Hf Hup
                    | p0 e0 id project wa wb wc Hs Hf Hi Hf2]; subst.
  - unfold cachedProject in Hp.
    destruct (slotProject c1) as [[| | |[p'|]]|]; try discriminate.
    step. rewrite Hq; step. rewrite Hw; step. reflexivity.
  - destruct Hs as [Hs|Hs]; rewrite Hs; step; rewrite Hf; step;
      rewrite Hup; step; rewrite Hq; step; rewrite Hw; step;
      now rewrite <- !app_assoc.
  - destruct Hs as [Hs|Hs]; rewrite Hs; step; rewrite Hf; step;
      rewrite Hi; step; rewrite Hf2; step; rewrite Hq; step;
      rewrite Hw; step; now rewrite <- !app_assoc.
Qed.

(** C2.  On a session with no identity cached, which is every session on
    which [Validate] has not succeeded, [Write] does not return: the type
    assertion in [getUser] panics on the nil interface.  The state is
    untouched, so neither the storage backend nor the project store is
    called; but no error value is returned. *)
Theorem Write_unvalidated_panics (entry : utils.FileEntry) (s : State W) :
  slotUser (context s) = None ->
  Write h entry s = (Panics "interface conversion: not *db.User", s).
Proof.
  intros Hu. unfold Write. unfold_monad. now rewrite Hu.
Qed.


(** C8.  The URL of a successful [Write] is the site's asset URL of the
    identity's name, the project name of the entry's path, and the path
    with the first occurrence of [/project/] removed; for a path that
    starts with [/seg/], the project name is [seg] and what is removed is
    that leading segment only: the rest of the path is passed on as it
    is. *)
Theorem Write_url (entry e' : utils.FileEntry) (url : string)
  (s s' : State W) :
  Write h entry s = (Returns (e', (url, None)), s') ->
  exists u,
    cachedUser (context s) = Some u
    /\ url = AssetURL (Cfg h) (db.Name u) (shared.GetProjectName entry)
               (GoStrings.Replace (utils.Filepath entry)
                  ("/" ++ shared.GetProjectName entry ++ "/") "" 1)
    /\ (forall seg rest,
           utils.Filepath entry = "/" ++ seg ++ "/" ++ rest ->
           Spec.countSeparators seg = O ->
           url = AssetURL (Cfg h) (db.Name u) seg rest).
Proof.
  intros H.
  destruct (Write_success _ _ H) as (u & b & q & tr & Hu & _ & _ & _ & Hurl & _).
  exists u. split; [exact Hu|]. split; [exact Hurl|].
  intros seg rest Hp Hs.
  rewrite Hurl, (GoFacts.GetProjectName_first_segment entry seg rest Hp Hs), Hp.
  f_equal.
  replace ("/" ++ seg ++ "/" ++ rest) with (String "/" (seg ++ "/") ++ rest).
  - apply GoFacts.Replace_leading.
  - cbn [append]. f_equal. apply GoFacts.append_assoc.
Qed.

(** C10.  On a validated session whose project is cached or resolves, a
    failure while reading the entry's stream is not reported: [Write]
    goes on with no bytes, sets the entry's size to 0 and leaves its other
    fields alone, hands the empty payload to the storage write and, when
    that succeeds, returns the URL and a nil error. *)
Theorem Write_ignores_read_failure (entry : utils.FileEntry) (s : State W)
  (u : db.User) (b : storage.Bucket) (q : Z) (evs : list Event)
  (c1 : SshContext) (w1 w2 : W) (bs : list Byte.byte) (err : error) :
  Validated (context s) u b q ->
  ProjectResolved h u (shared.GetProjectName entry) (context s) (world s)
                  evs c1 w1 ->
  GoIO.ReadAll (utils.Reader entry) = (bs, Some err) ->
  let e' := {| utils.Filepath := utils.Filepath entry;
               utils.Mode := utils.Mode entry;
               utils.Size := 0;
               utils.Mtime := utils.Mtime entry;
               utils.Reader := utils.Reader entry |} in
  let d := {| FileEntry := e'; Text := []; User := Some u; Bucket := b;
              BucketQuota := q |} in
  writeAsset d w1 = (None, w2) ->
  Write h entry s
  = (Returns (e', (AssetURL (Cfg h) (db.Name u) (shared.GetProjectName entry)
                     (GoStrings.Replace (utils.Filepath entry)
                        ("/" ++ shared.GetProjectName entry ++ "/") "" 1),
                   None)),
     {| session := session s; context := c1; world := w2;
        trace := (trace s ++ evs ++ [EvWriteAsset d])%list |}).
Proof.
  intros Hv Hres Hr e' d Hw.
  assert (Ho : origTextOf entry = []) by (unfold origTextOf; now rewrite Hr).
  pose proof (@Write_succeeds entry s u b q evs c1 w1 w2 Hv Hres) as Hs.
  cbv zeta in Hs. rewrite Ho in Hs.
  change (utils.withSize entry (Z.of_nat (length (@nil Byte.byte))))
    with e' in Hs.
  apply Hs. exact Hw.
Qed.

Lemma storageCalls_app (a b : list Event) :
  storageCalls (a ++ b) = (storageCalls a ++ storageCalls b)%list.
Proof. apply filter_app. Qed.

(** C5.  [Validate] rejects before the bucket upsert: when the session
    has no key, when the key resolves to no identity, when the identity
    has no name, and when a named identity lacks the "pgs" feature (the
    error is then "you do not have access to this service").  In each
    case the context is left as it was and no call to the storage backend
    is made. *)
Theorem Validate_rejects_before_storage (s : State W) :
  (forall k e,
      KeyText (session s) = (k, Some e) ->
      Validate h s = (Returns (Some "key not found"), s))
  /\ (forall k user e w1,
         KeyText (session s) = (k, None) ->
         FindUserForKey (DBPool h) (ssh.User (session s)) k (world s)
         = ((user, Some e), w1) ->
         exists s',
           Validate h s = (Returns (Some e), s')
           /\ context s' = context s
           /\ storageCalls (trace s') = storageCalls (trace s))
  /\ (forall k u w1,
         KeyText (session s) = (k, None) ->
         FindUserForKey (DBPool h) (ssh.User (session s)) k (world s)
         = ((Some u, None), w1) ->
         db.Name u = "" ->
         exists s',
           Validate h s = (Returns (Some "must have username set"), s')
           /\ context s' = context s
           /\ storageCalls (trace s') = storageCalls (trace s))
  /\ (forall k u w1 w2,
         KeyText (session s) = (k, None) ->
         FindUserForKey (DBPool h) (ssh.User (session s)) k (world s)
         = ((Some u, None), w1) ->
         db.Name u <> "" ->
         HasFeatureForUser (DBPool h) (db.ID u) "pgs" w1 = (false, w2) ->
         exists s',
           Validate h s
           = (Returns (Some "you do not have access to this service"), s')
           /\ context s' = context s
           /\ storageCalls (trace s') = storageCalls (trace s)).
Proof.
  repeat split.
  - intros k e Hk. unfold Validate. unfold_monad. now rewrite Hk.
  - intros k user e w1 Hk Hf. unfold Validate. unfold_monad.
    rewrite Hk; step. rewrite Hf; step.
    eexists. split; [reflexivity|]. split; [reflexivity|].
    cbn [trace]. rewrite storageCalls_app. cbn. apply app_nil_r.
  - intros k u w1 Hk Hf Hn. unfold Validate. unfold_monad.
    rewrite Hk; step. rewrite Hf; step. rewrite Hn; step.
    eexists. split; [reflexivity|]. split; [reflexivity|].
    cbn [trace]. rewrite storageCalls_app. cbn. apply app_nil_r.
  - intros k u w1 w2 Hk Hf Hn Hhas. apply String.eqb_neq in Hn.
    unfold Validate. unfold_monad.
    rewrite Hk; step. rewrite Hf; step. rewrite Hn; step.
    rewrite Hhas; step.
    eexists. split; [reflexivity|]. split; [reflexivity|].
    cbn [trace]. rewrite !storageCalls_app. cbn. now rewrite !app_nil_r.
Qed.

Lemma identityImpliesBucket_keep (c c' : SshContext) :
  slotUser c' = slotUser c ->
  slotBucketQuota c' = slotBucketQuota c ->
  (slotBucket c' = slotBucket c \/ slotBucket c' <> None) ->
  Spec.identityImpliesBucket c -> Spec.identityImpliesBucket c'.
Proof.
  unfold Spec.identityImpliesBucket. intros Hu Hq Hb Hc Hu'.
  rewrite Hu in Hu'. destruct (Hc Hu') as [H1 H2].
  rewrite Hq. split; [|exact H2].
  destruct Hb as [Hb|Hb]; [now rewrite Hb | exact Hb].
Qed.

(** C6, as the code has it.  When the update, the insert or the re-fetch
    of the project fails, [Write] returns that error and the context is
    exactly what it was: no project is cached.  On every path [Write] leaves identity,
    bucket and quota snapshot alone and changes the context, if at all, by
    caching the project; when it returns an error, the context is unchanged
    unless the error is that of the storage write, which comes after the
    project has been resolved.  When [Validate] does not succeed, the
    cached identity, quota snapshot and project are what they were; the
    context as a whole is unchanged, except after a failed quota read, when
    the upserted bucket is cached already; a cached identity still comes
    with a cached bucket and quota snapshot. *)
Theorem error_paths_keep_context (s : State W) :
  (forall entry r s',
      Write h entry s = (r, s') ->
      context s' = context s
      \/ exists project,
          context s' = SetValue (context s) ctxProjectKey (VProject project))
  /\ (forall entry e' url e s',
         Write h entry s = (Returns (e', (url, Some e)), s') ->
         context s' = context s
         \/ exists tr d, trace s' = (tr ++ [EvWriteAsset d])%list)
  /\ (forall entry u b q e evs w',
         Validated (context s) u b q ->
         ProjectResolutionFails h u (shared.GetProjectName entry)
                                (context s) (world s) e evs w' ->
         Write h entry s
         = (Returns (utils.withSize entry
                       (Z.of_nat (length (origTextOf entry))), ("", Some e)),
            {| session := session s; context := context s; world := w';
               trace := (trace s ++ evs)%list |}))
  /\ (forall r s',
         Validate h s = (r, s') ->
         r <> Returns None ->
         slotUser (context s') = slotUser (context s)
         /\ slotBucketQuota (context s') = slotBucketQuota (context s)
         /\ slotProject (context s') = slotProject (context s)
         /\ (context s' = context s
             \/ exists bucket tr,
                 context s'
                 = SetValue (context s) ctxBucketKey (VBucket bucket)
                 /\ trace s' = (tr ++ [EvGetBucketQuota bucket])%list)
         /\ (Spec.identityImpliesBucket (context s) ->
             Spec.identityImpliesBucket (context s'))).
Proof.
  split; [|split; [|split]].
  - intros entry r s' H. unfold Write in H. unfold_monad.
    split_cases H; finish_run H;
      first [ left; reflexivity
            | right; eexists; reflexivity
            | right; eexists; cbn [SetValue]; f_equal;
              first [ reflexivity | symmetry; eassumption ] ].
  - intros entry e' url e s' H. unfold Write in H. unfold_monad.
    split_cases H; finish_run H;
      first [ left; reflexivity | right; do 2 eexists; reflexivity ].
  - intros entry u b q e evs w' (Hu & Hb & Hn & Hq) Hf.
    apply String.eqb_neq in Hn.
    unfold Write. unfold_monad. unfold GoIO.binarySize.
    rewrite !GetProjectName_withSize.
    destruct s as [sess c w tr]. cbn [context world trace session] in *.
    rewrite Hu; step. rewrite Hb; step. rewrite Hn; step.
    inversion Hf as [project e1 wa wb Hs Hfi Hup
                    | p0 e0 id e1 wa wb Hs Hfi Hi
                    | p0 e0 id project e1 wa wb wc Hs Hfi Hi Hf2]; subst.
    + destruct Hs as [Hs|Hs]; rewrite Hs; step; rewrite Hfi; step;
        rewrite Hup; step; now rewrite <- !app_assoc.
    + destruct Hs as [Hs|Hs]; rewrite Hs; step; rewrite Hfi; step;
        rewrite Hi; step; now rewrite <- !app_assoc.
    + destruct Hs as [Hs|Hs]; rewrite Hs; step; rewrite Hfi; step;
        rewrite Hi; step; rewrite Hf2; step; now rewrite <- !app_assoc.
  - intros r s' H Hr. unfold Validate in H. unfold_monad.
    split_cases H; finish_run H; try congruence;
      (split; [reflexivity|]); (split; [reflexivity|]);
      (split; [reflexivity|]);
      (split;
       [ first [ left; reflexivity
               | right; do 2 eexists; split; reflexivity ]
       | first [ exact (fun H => H)
               | apply identityImpliesBucket_keep;
                 [reflexivity | reflexivity | right; discriminate] ] ]).
Qed.

(** C4, as the code has it.  On a session holding an identity whose bucket
    the backend finds, [List] answers a path whose base name is "." (the
    empty path, for one) with a single synthetic directory entry and
    without listing files; for the root path "/", the one the listing
    handler passes, its base name is "/" and [List] asks the backend for
    the files at "/", not recursively, and returns what it gets. *)
Theorem List_root (s : State W) (u : db.User) (bucket : storage.Bucket)
  (w1 : W) :
  cachedUser (context s) = Some u ->
  GetBucket (Storage h) (GetAssetBucketName (db.ID u)) (world s)
  = ((bucket, None), w1) ->
  (forall fpath,
      GoFilepath.Base fpath = "." ->
      exists info s',
        List h fpath s = (Returns ([info], None), s')
        /\ utils.FIsDir info = true
        /\ existsb isListFiles (trace s') = existsb isListFiles (trace s))
  /\ (forall fileList err w2,
         ListFiles (Storage h) bucket "/" false w1 = ((fileList, err), w2) ->
         List h "/" s
         = (Returns (fileList, err),
            {| session := session s; context := context s; world := w2;
               trace := (trace s
                         ++ [EvGetBucket (GetAssetBucketName (db.ID u));
                             EvListFiles bucket "/" false])%list |})).
Proof.
  intros Hu Hg. unfold cachedUser in Hu.
  destruct (slotUser (context s)) as [[[u'|]| | |]|] eqn:E; try discriminate.
  inversion Hu; subst u'. clear Hu.
  split.
  - intros fpath Hb. unfold List. unfold_monad. rewrite Hb, E; step.
    rewrite Hg; step. do 2 eexists. split; [reflexivity|].
    split; [reflexivity|]. cbn [trace].
    rewrite existsb_app. cbn. apply orb_false_r.
  - intros fileList err w2 Hl. unfold List. unfold_monad.
    change (GoFilepath.Base "/") with "/". rewrite E; step.
    rewrite Hg; step.
    change (String.eqb "/" "" || String.eqb "/" ".") with false; step.
    rewrite Hl; step.
    destruct err; now rewrite <- app_assoc.
Qed.

End HandlerFacts.

(** ** The listing middleware *)

Section MiddlewareFacts.

Context {W : Type} {X : Externals W}.

Variable writeHandler : CopyFromClientHandler W.

Lemma command_guard (cmd : list string) :
  (1 <? Z.of_nat (length cmd))
  && String.eqb (nth 0 cmd "") "command"
  && String.eqb (nth 1 cmd "") "ls"
  = Spec.startsWithListCommand cmd.
Proof.
  destruct cmd as [|a [|b l]]; [reflexivity | reflexivity |].
  replace (1 <? Z.of_nat (length (a :: b :: l))) with true; [reflexivity|].
  symmetry. apply Z.ltb_lt. cbn [length]. lia.
Qed.

Lemma append_loop {A : Type} (g : A -> string) (l : list A) :
  forall acc,
    fold_left (fun (data : list string) (x : A) => (data ++ [g x])%list) l acc
    = (acc ++ map g l)%list.
Proof.
  induction l as [|x l IH]; intros acc; cbn [fold_left map].
  - now rewrite app_nil_r.
  - rewrite IH, <- app_assoc. reflexivity.
Qed.

(** The loop of the middleware computes the listed name of every entry, in
    the order of the listing. *)
Lemma names_loop (fileList : list utils.VirtualFile) :
  fold_left
    (fun (data : list string) (file : utils.VirtualFile) =>
       let name := GoStrings.ReplaceAll (utils.FName file) "/" "" in
       let name := if utils.FIsDir file then name ++ "/" else name in
       (data ++ [name])%list)
    fileList []
  = map Spec.listedName fileList.
Proof.
  rewrite (append_loop
             (fun file =>
                let name := GoStrings.ReplaceAll (utils.FName file) "/" "" in
                if utils.FIsDir file then name ++ "/" else name)).
  cbn [app]. apply map_ext. intros f. unfold Spec.listedName.
  cbv zeta. now rewrite GoFacts.ReplaceAll_slash.
Qed.

(** C3.  Once [Validate] and [List] have succeeded, the middleware writes
    to the session the listed names joined by the newline byte (10), where
    the listed names are those of the entries (every separator stripped
    from the name, one separator appended for a directory and none
    otherwise), rearranged in ascending byte order.  This is the only
    thing it does: when the write succeeds nothing follows, and when it
    fails the error goes to the error handler. *)
Theorem Middleware_output (sshHandler : M W unit) (s s1 s2 : State W)
  (fileList : list utils.VirtualFile) :
  Spec.startsWithListCommand (ssh.Command (session s)) = true ->
  hValidate writeHandler s = (Returns None, s1) ->
  hList writeHandler "/" s1 = (Returns (fileList, None), s2) ->
  exists data,
    Permutation data (map Spec.listedName fileList)
    /\ Spec.ascending data
    /\ Forall (fun name =>
                 exists f, In f fileList /\ name = Spec.listedName f
                           /\ Spec.countSeparators name
                              = if utils.FIsDir f then 1%nat else 0%nat) data
    /\ let p := list_byte_of_string
                  (String.concat (String "010"%char EmptyString) data) in
       forall werr w3,
         sessionWrite p (world s2) = (werr, w3) ->
         Middleware writeHandler sshHandler s
         = (Returns tt,
            match werr with
            | None =>
                {| session := session s2; context := context s2;
                   world := w3;
                   trace := (trace s2 ++ [EvSessionWrite p])%list |}
            | Some e =>
                {| session := session s2; context := context s2;
                   world := snd (ErrorHandler e w3);
                   trace := (trace s2
                             ++ [EvSessionWrite p; EvErrorHandler e])%list |}
            end).
Proof.
  intros Hc Hv Hl.
  set (data := GoSort.Strings (map Spec.listedName fileList)).
  assert (Hperm : Permutation data (map Spec.listedName fileList))
    by apply GoFacts.Strings_perm.
  assert (Hall : Forall (fun name =>
                 exists f, In f fileList /\ name = Spec.listedName f
                           /\ Spec.countSeparators name
                              = if utils.FIsDir f then 1%nat else 0%nat) data).
  { apply Forall_forall. intros name Hin.
    apply (Permutation_in _ Hperm) in Hin. apply in_map_iff in Hin.
    destruct Hin as (f & Hf & Hin). exists f. subst name.
    repeat split; [exact Hin | apply GoFacts.listedName_separators]. }
  exists data.
  split; [exact Hperm|]. split; [apply GoFacts.Strings_sorted|].
  split; [exact Hall|].
  intros p werr w3 Hw. subst p.
  unfold Middleware. unfold_monad.
  rewrite command_guard, Hc. cbn [negb]. rewrite Hv; step. rewrite Hl; step.
  rewrite names_loop. fold data. unfold GoStrings.Join.
  change newline with (String "010"%char EmptyString).
  rewrite Hw; step.
  destruct werr as [e|]; step.
  - destruct (ErrorHandler e w3) as [[] w4]. step.
    cbn [snd]. now rewrite <- app_assoc.
  - reflexivity.
Qed.

(** C9, as the code has it.  A command that does not begin with the two
    tokens "command" and "ls" is handed to the next handler and nothing
    else is done.  A command that begins with them, whatever follows, runs
    the listing and the next handler plays no part in it: [Validate] is
    called; if it fails, its error goes to the error handler; otherwise
    [List] is called for "/"; if it fails, its error goes to the error
    handler; otherwise the listed names, sorted and joined by the newline
    byte, are written to the session, and a failure of that write goes to
    the error handler.  A panic of [Validate] or [List] is not caught. *)
Theorem Middleware_dispatch (sshHandler : M W unit) (s : State W) :
  (Spec.startsWithListCommand (ssh.Command (session s)) = false ->
   Middleware writeHandler sshHandler s = sshHandler s)
  /\ (Spec.startsWithListCommand (ssh.Command (session s)) = true ->
      (forall other : M W unit,
          Middleware writeHandler sshHandler s
          = Middleware writeHandler other s)
      /\ (forall msg s1,
             hValidate writeHandler s = (Panics msg, s1) ->
             Middleware writeHandler sshHandler s = (Panics msg, s1))
      /\ (forall e s1,
             hValidate writeHandler s = (Returns (Some e), s1) ->
             Middleware writeHandler sshHandler s
             = (Returns tt,
                {| session := session s1; context := context s1;
                   world := snd (ErrorHandler e (world s1));
                   trace := (trace s1 ++ [EvErrorHandler e])%list |}))
      /\ (forall s1 msg s2,
             hValidate writeHandler s = (Returns None, s1) ->
             hList writeHandler "/" s1 = (Panics msg, s2) ->
             Middleware writeHandler sshHandler s = (Panics msg, s2))
      /\ (forall s1 fileList e s2,
             hValidate writeHandler s = (Returns None, s1) ->
             hList writeHandler "/" s1 = (Returns (fileList, Some e), s2) ->
             Middleware writeHandler sshHandler s
             = (Returns tt,
                {| session := session s2; context := context s2;
                   world := snd (ErrorHandler e (world s2));
                   trace := (trace s2 ++ [EvErrorHandler e])%list |}))
      /\ (forall s1 fileList s2 werr w3,
             hValidate writeHandler s = (Returns None, s1) ->
             hList writeHandler "/" s1 = (Returns (fileList, None), s2) ->
             let p := list_byte_of_string
                        (String.concat (String "010"%char EmptyString)
                           (GoSort.Strings (map Spec.listedName fileList))) in
             sessionWrite p (world s2) = (werr, w3) ->
             Middleware writeHandler sshHandler s
             = (Returns tt,
                match werr with
                | None =>
                    {| session := session s2; context := context s2;
                       world := w3;
                       trace := (trace s2 ++ [EvSessionWrite p])%list |}
                | Some e =>
                    {| session := session s2; context := context s2;
                       world := snd (ErrorHandler e w3);
                       trace := (trace s2
                                 ++ [EvSessionWrite p;
                                     EvErrorHandler e])%list |}
                end))).
Proof.
  split; intros Hc.
  - unfold Middleware. unfold_monad. now rewrite command_guard, Hc.
  - split; [|split; [|split; [|split; [|split]]]].
    + intros other. unfold Middleware. unfold_monad.
      now rewrite command_guard, Hc.
    + intros msg s1 Hv. unfold Middleware. unfold_monad.
      rewrite command_guard, Hc. cbn [negb]. now rewrite Hv.
    + intros e s1 Hv. unfold Middleware. unfold_monad.
      rewrite command_guard, Hc. cbn [negb]. rewrite Hv; step.
      destruct (ErrorHandler e (world s1)) as [[] w']. reflexivity.
    + intros s1 msg s2 Hv Hl. unfold Middleware. unfold_monad.
      rewrite command_guard, Hc. cbn [negb]. rewrite Hv; step.
      now rewrite Hl.
    + intros s1 fileList e s2 Hv Hl. unfold Middleware. unfold_monad.
      rewrite command_guard, Hc. cbn [negb]. rewrite Hv; step.
      rewrite Hl; step.
      destruct (ErrorHandler e (world s2)) as [[] w']. reflexivity.
    + intros s1 fileList s2 werr w3 Hv Hl p Hw. subst p.
      unfold Middleware. unfold_monad.
      rewrite command_guard, Hc. cbn [negb]. rewrite Hv; step.
      rewrite Hl; step. rewrite names_loop. unfold GoStrings.Join.
      change newline with (String "010"%char EmptyString).
      rewrite Hw; step.
      destruct werr as [e|]; step.
      * destruct (ErrorHandler e w3) as [[] w4]. step.
        cbn [snd]. now rewrite <- app_assoc.
      * reflexivity.
Qed.

End MiddlewareFacts.

(** ** The properties on the small deployment *)

Module Scenarios.

Import Demo.

(** Alice uploads two files under [/blog/] and one under [/wiki/]: one
    lookup, one insert and one re-fetch, all for "blog". *)
Lemma Writes_resolve_project_once_witness :
  exists u,
    cachedUser (context (validated world0)) = Some u
    /\ cachedProject
         (context (snd (Writes handler [post1; post2; other]
                               (validated world0))))
       = Some {| db.UserID := "u1"; db.ProjectName := "blog";
                 db.Label := "blog" |}
    /\ (projectStoreCalls
          (trace (snd (Writes handler [post1; post2; other]
                              (validated world0))))
        = (projectStoreCalls (trace (validated world0))
           ++ [EvFindProjectByName (db.ID u) (shared.GetProjectName post1);
               EvUpdateProject (db.ID u) (shared.GetProjectName post1)])%list
        \/ projectStoreCalls
             (trace (snd (Writes handler [post1; post2; other]
                                 (validated world0))))
           = (projectStoreCalls (trace (validated world0))
              ++ [EvFindProjectByName (db.ID u) (shared.GetProjectName post1);
                  EvInsertProject (db.ID u) (shared.GetProjectName post1)
                                  (shared.GetProjectName post1);
                  EvFindProjectByName (db.ID u)
                                      (shared.GetProjectName post1)])%list).
Proof.
  apply (@Writes_resolve_project_once World externals handler post1
           [post2; other] (validated world0)
           (snd (Writes handler [post1; post2; other] (validated world0)))
           {| db.UserID := "u1"; db.ProjectName := "blog";
              db.Label := "blog" |}
           (fst (Writes handler [post1; post2; other] (validated world0)))).
  - reflexivity.
  - reflexivity.
  - apply surjective_pairing.
Defined.

(** The insert is refused: two files under [/blog/] make the lookup and
    the insert twice, once for each write, and no project is cached. *)
Lemma Writes_resolve_project_once_counterexample :
  shared.GetProjectName post1 = shared.GetProjectName post2
  /\ projectStoreCalls (trace (validated insertDown)) = []
  /\ projectStoreCalls
       (trace (snd (Writes handler [post1; post2] (validated insertDown))))
     = [EvFindProjectByName "u1" "blog"; EvInsertProject "u1" "blog" "blog";
        EvFindProjectByName "u1" "blog"; EvInsertProject "u1" "blog" "blog"]
  /\ cachedProject
       (context (snd (Writes handler [post1; post2] (validated insertDown))))
     = None.
Proof. repeat split. Qed.

(** A write on a fresh connection. *)
Lemma Write_unvalidated_panics_witness :
  Write handler post1 (fresh (Some "key-alice") [] world0)
  = (Panics "interface conversion: not *db.User",
     fresh (Some "key-alice") [] world0).
Proof.
  apply (@Write_unvalidated_panics World externals handler post1
           (fresh (Some "key-alice") [] world0)).
  reflexivity.
Defined.

(** The listing of four entries. *)
Lemma Middleware_output_witness :
  let s := fresh (Some "key-alice") ["command"; "ls"] (withFiles listing) in
  let s1 := snd (Validate handler s) in
  let s2 := snd (List handler "/" s1) in
  exists data,
    Permutation data (map Spec.listedName listing)
    /\ Spec.ascending data
    /\ Forall (fun name =>
                 exists f, In f listing /\ name = Spec.listedName f
                           /\ Spec.countSeparators name
                              = if utils.FIsDir f then 1%nat else 0%nat) data
    /\ let p := list_byte_of_string
                  (String.concat (String "010"%char EmptyString) data) in
       forall werr w3,
         sessionWrite p (world s2) = (werr, w3) ->
         Middleware (asCopyFromClientHandler handler) next s
         = (Returns tt,
            match werr with
            | None =>
                {| session := session s2; context := context s2;
                   world := w3;
                   trace := (trace s2 ++ [EvSessionWrite p])%list |}
            | Some e =>
                {| session := session s2; context := context s2;
                   world := snd (ErrorHandler e w3);
                   trace := (trace s2
                             ++ [EvSessionWrite p; EvErrorHandler e])%list |}
            end).
Proof.
  intros s s1 s2.
  apply (@Middleware_output World externals (asCopyFromClientHandler handler)
           next s s1 s2 listing).
  - reflexivity.
  - reflexivity.
  - reflexivity.
Defined.

Example listing_output :
  trace (snd (Middleware (asCopyFromClientHandler handler) next
                (fresh (Some "key-alice") ["command"; "ls"]
                       (withFiles listing))))
  = (trace (validated (withFiles listing))
     ++ [EvGetBucket "static-u1"; EvListFiles bucket1 "/" false;
         EvSessionWrite
           [Byte.x61; Byte.x62; Byte.x2e; Byte.x74; Byte.x78; Byte.x74;
            Byte.x0a;
            Byte.x61; Byte.x73; Byte.x73; Byte.x65; Byte.x74; Byte.x73;
            Byte.x2f; Byte.x0a;
            Byte.x62; Byte.x6c; Byte.x6f; Byte.x67; Byte.x2f; Byte.x0a;
            Byte.x69; Byte.x6e; Byte.x64; Byte.x65; Byte.x78; Byte.x2e;
            Byte.x68; Byte.x74; Byte.x6d; Byte.x6c]])%list.
Proof. reflexivity. Qed.

(** The root path lists the files of the bucket: on an empty bucket the
    answer is the empty listing of the backend, not one synthetic entry
    named "/", and the backend's file listing has been called. *)
Lemma List_root_counterexample :
  exists s',
    List handler "/" (validated world0) = (Returns ([], None), s')
    /\ existsb isListFiles (trace (validated world0)) = false
    /\ existsb isListFiles (trace s') = true.
Proof.
  exists (snd (List handler "/" (validated world0))).
  split; [vm_compute; reflexivity|]. split; vm_compute; reflexivity.
Qed.

Lemma List_root_witness :
  (forall fpath,
      GoFilepath.Base fpath = "." ->
      exists info s',
        List handler fpath (validated (withFiles listing))
        = (Returns ([info], None), s')
        /\ utils.FIsDir info = true
        /\ existsb isListFiles (trace s')
           = existsb isListFiles (trace (validated (withFiles listing))))
  /\ (forall fileList err w2,
         ListFiles st bucket1 "/" false (withFiles listing)
         = ((fileList, err), w2) ->
         List handler "/" (validated (withFiles listing))
         = (Returns (fileList, err),
            {| session := session (validated (withFiles listing));
               context := context (validated (withFiles listing));
               world := w2;
               trace := (trace (validated (withFiles listing))
                         ++ [EvGetBucket (GetAssetBucketName (db.ID alice));
                             EvListFiles bucket1 "/" false])%list |})).
Proof.
  apply (@List_root World externals handler (validated (withFiles listing))
           alice bucket1 (withFiles listing)).
  - reflexivity.
  - reflexivity.
Defined.

Example List_empty_path :
  fst (List handler "" (validated (withFiles listing)))
  = Returns ([{| utils.FName := "."; utils.FIsDir := true;
                 utils.FSize := 0; utils.FModTime := -62135596800 |}], None)
  /\ existsb isListFiles
       (trace (snd (List handler "" (validated (withFiles listing)))))
     = false.
Proof. split; reflexivity. Qed.

(** Alice without the feature. *)
Lemma Validate_rejects_before_storage_witness :
  exists s',
    Validate handler (fresh (Some "key-alice") [] notEntitled)
    = (Returns (Some "you do not have access to this service"), s')
    /\ context s' = emptyContext
    /\ storageCalls (trace s') = [].
Proof.
  apply (proj2 (proj2 (proj2
           (@Validate_rejects_before_storage World externals handler
              (fresh (Some "key-alice") [] notEntitled))))
           "key-alice" alice notEntitled notEntitled).
  - reflexivity.
  - reflexivity.
  - discriminate.
  - reflexivity.
Defined.

Example Validate_no_key :
  Validate handler (fresh None [] world0)
  = (Returns (Some "key not found"), fresh None [] world0).
Proof. reflexivity. Qed.

Example Validate_nameless :
  fst (Validate handler (fresh (Some "key-nameless") [] world0))
  = Returns (Some "must have username set").
Proof. reflexivity. Qed.

(** The quota read fails: [Validate] returns the error with the bucket
    cached already, and neither identity nor quota snapshot. *)
Example Validate_quota_failure :
  Spec.allOrNothing (context (fresh (Some "key-alice") [] quotaDown))
  /\ exists s',
       Validate handler (fresh (Some "key-alice") [] quotaDown)
       = (Returns (Some "quota unavailable"), s')
       /\ context s'
          = SetValue emptyContext ctxBucketKey (VBucket bucket1)
       /\ ~ Spec.allOrNothing (context s')
       /\ Spec.identityImpliesBucket (context s').
Proof.
  split.
  - left. repeat split.
  - exists (snd (Validate handler (fresh (Some "key-alice") [] quotaDown))).
    split; [reflexivity|]. split; [reflexivity|]. split.
    + intros [(_ & Hb & _) | (Hu & _ & _)].
      * discriminate Hb.
      * apply Hu. reflexivity.
    + intros Hu. elim Hu. reflexivity.
Qed.

(** On a fresh connection nothing is cached; after the failed quota read
    the bucket is, alone. *)
Lemma error_paths_keep_context_counterexample :
  Spec.allOrNothing (context (fresh (Some "key-alice") [] quotaDown))
  /\ fst (Validate handler (fresh (Some "key-alice") [] quotaDown))
     = Returns (Some "quota unavailable")
  /\ ~ Spec.allOrNothing
        (context (snd (Validate handler
                         (fresh (Some "key-alice") [] quotaDown)))).
Proof.
  split; [left; repeat split|]. split; [reflexivity|].
  intros [(_ & Hb & _) | (Hu & _ & _)].
  - discriminate Hb.
  - apply Hu. reflexivity.
Qed.

Lemma error_paths_keep_context_witness :
  Write handler post1 (validated insertDown)
  = (Returns (utils.withSize post1 10, ("", Some "insert failed")),
     {| session := session (validated insertDown);
        context := context (validated insertDown);
        world := insertDown;
        trace := (trace (validated insertDown)
                  ++ [EvFindProjectByName "u1" "blog";
                      EvInsertProject "u1" "blog" "blog"])%list |})
  /\ slotUser (context (snd (Validate handler
                               (fresh (Some "key-alice") [] quotaDown))))
     = None.
Proof.
  pose proof (@error_paths_keep_context World externals handler
                (validated insertDown)) as (_ & _ & Hw & _).
  pose proof (@error_paths_keep_context World externals handler
                (fresh (Some "key-alice") [] quotaDown)) as (_ & _ & _ & Hv).
  split.
  - apply (Hw post1 alice bucket1 0 "insert failed"
              [EvFindProjectByName "u1" "blog";
               EvInsertProject "u1" "blog" "blog"] insertDown).
    + repeat split. discriminate.
    + apply (@InsertFails World handler alice "blog"
               (context (validated insertDown)) insertDown
               None "project not found" "" "insert failed"
               insertDown insertDown).
      * left. reflexivity.
      * reflexivity.
      * reflexivity.
  - apply (Hv (Returns (Some "quota unavailable"))
              (snd (Validate handler
                      (fresh (Some "key-alice") [] quotaDown)))).
    + reflexivity.
    + discriminate.
Defined.

Example Write_update_fails :
  Write handler post1 (validated updateDown)
  = (Returns (utils.withSize post1 10, ("", Some "update failed")),
     {| session := session (validated updateDown);
        context := context (validated updateDown);
        world := updateDown;
        trace := (trace (validated updateDown)
                  ++ [EvFindProjectByName "u1" "blog";
                      EvUpdateProject "u1" "blog"])%list |}).
Proof. reflexivity. Qed.

Example Write_refetch_fails :
  Write handler post1 (validated refetchDown)
  = (Returns (utils.withSize post1 10, ("", Some "project not found")),
     {| session := session (validated refetchDown);
        context := context (validated refetchDown);
        world := refetchDown;
        trace := (trace (validated refetchDown)
                  ++ [EvFindProjectByName "u1" "blog";
                      EvInsertProject "u1" "blog" "blog";
                      EvFindProjectByName "u1" "blog"])%list |}).
Proof. reflexivity. Qed.


Lemma Write_url_witness :
  exists u,
    cachedUser (context (validated world0)) = Some u
    /\ "https://alice-blog.pgs.sh/post1.md"
       = AssetURL cfg (db.Name u) (shared.GetProjectName post1)
           (GoStrings.Replace (utils.Filepath post1)
              ("/" ++ shared.GetProjectName post1 ++ "/") "" 1)
    /\ (forall seg rest,
           utils.Filepath post1 = "/" ++ seg ++ "/" ++ rest ->
           Spec.countSeparators seg = O ->
           "https://alice-blog.pgs.sh/post1.md"
           = AssetURL cfg (db.Name u) seg rest).
Proof.
  apply (@Write_url World externals handler post1 (utils.withSize post1 10)
           "https://alice-blog.pgs.sh/post1.md" (validated world0)
           (snd (Write handler post1 (validated world0)))).
  reflexivity.
Defined.

(** Two files of one session: two URLs under alice's name, without the
    [/blog/] prefix. *)
Example two_posts :
  map (fun r => fst (snd r))
      match fst (Writes handler [post1; post2] (validated world0)) with
      | Returns rs => rs
      | Panics _ => []
      end
  = ["https://alice-blog.pgs.sh/post1.md";
     "https://alice-blog.pgs.sh/post2.md"].
Proof. reflexivity. Qed.

(** A third token after "command ls": not the exact listing command, yet
    the listing runs and the next handler does not. *)
Lemma Middleware_dispatch_counterexample :
  Spec.isExactListCommand ["command"; "ls"; "-la"] = false
  /\ Middleware (asCopyFromClientHandler handler) next
       (fresh (Some "key-alice") ["command"; "ls"; "-la"] world0)
     <> next (fresh (Some "key-alice") ["command"; "ls"; "-la"] world0).
Proof.
  split; [reflexivity|]. intros H.
  apply (f_equal (fun r => length (trace (snd r)))) in H.
  vm_compute in H. discriminate H.
Qed.

Lemma Middleware_dispatch_witness :
  Middleware (asCopyFromClientHandler handler) next
    (fresh (Some "key-alice") ["command"; "cat"] world0)
  = next (fresh (Some "key-alice") ["command"; "cat"] world0)
  /\ Middleware (asCopyFromClientHandler handler) next
       (fresh (Some "key-alice") ["command"; "ls"; "-la"] world0)
     = Middleware (asCopyFromClientHandler handler) (ret tt)
         (fresh (Some "key-alice") ["command"; "ls"; "-la"] world0)
  /\ Middleware (asCopyFromClientHandler handler) next
       (fresh (Some "key-alice") ["command"; "ls"; "-la"] (withFiles listing))
     = (Returns tt,
        {| session := sessionOf (Some "key-alice") ["command"; "ls"; "-la"];
           context := context (validated (withFiles listing));
           world := withFiles listing;
           trace :=
             (trace (validated (withFiles listing))
              ++ [EvGetBucket "static-u1"; EvListFiles bucket1 "/" false]
              ++ [EvSessionWrite
                    (list_byte_of_string
                       (String.concat (String "010"%char EmptyString)
                          ["ab.txt"; "assets/"; "blog/"; "index.html"]))])%list
        |}).
Proof.
  split; [|split].
  - apply (proj1 (@Middleware_dispatch World externals
                    (asCopyFromClientHandler handler) next
                    (fresh (Some "key-alice") ["command"; "cat"] world0))).
    reflexivity.
  - apply (proj1
             (proj2 (@Middleware_dispatch World externals
                       (asCopyFromClientHandler handler) next
                       (fresh (Some "key-alice") ["command"; "ls"; "-la"]
                              world0))
                    eq_refl)).
  - etransitivity.
    + apply (proj2 (proj2 (proj2 (proj2 (proj2
               (proj2 (@Middleware_dispatch World externals
                         (asCopyFromClientHandler handler) next
                         (fresh (Some "key-alice") ["command"; "ls"; "-la"]
                                (withFiles listing)))
                      eq_refl)))))
               (snd (Validate handler
                       (fresh (Some "key-alice") ["command"; "ls"; "-la"]
                              (withFiles listing))))
               listing
               (snd (List handler "/"
                       (snd (Validate handler
                               (fresh (Some "key-alice")
                                      ["command"; "ls"; "-la"]
                                      (withFiles listing))))))
               None (withFiles listing)).
      * vm_compute. reflexivity.
      * vm_compute. reflexivity.
      * vm_compute. reflexivity.
    + vm_compute. reflexivity.
Defined.

(** The stream of [broken] fails after four bytes; the transport declared
    ten. *)
Lemma Write_ignores_read_failure_witness :
  let e' := {| utils.Filepath := "/blog/broken.md"; utils.Mode := 420;
               utils.Size := 0; utils.Mtime := 0;
               utils.Reader :=
                 GoIO.RChunk (bytesOf "0123") (GoIO.RFail "connection reset")
            |} in
  let d := {| FileEntry := e'; Text := []; User := Some alice;
              Bucket := bucket1; BucketQuota := 0 |} in
  Write handler broken (validated world0)
  = (Returns (e', ("https://alice-blog.pgs.sh/broken.md", None)),
     {| session := session (validated world0);
        context := SetValue (context (validated world0)) ctxProjectKey
                            (VProject (Some blog));
        world := store (addProject world0 "u1" "blog") d;
        trace := (trace (validated world0)
                  ++ [EvFindProjectByName "u1" "blog";
                      EvInsertProject "u1" "blog" "blog";
                      EvFindProjectByName "u1" "blog"]
                  ++ [EvWriteAsset d])%list |}).
Proof.
  intros e' d.
  apply (@Write_ignores_read_failure World externals handler broken
           (validated world0) alice bucket1 0
           [EvFindProjectByName "u1" "blog";
            EvInsertProject "u1" "blog" "blog";
            EvFindProjectByName "u1" "blog"]
           (SetValue (context (validated world0)) ctxProjectKey
                     (VProject (Some blog)))
           (addProject world0 "u1" "blog")
           (store (addProject world0 "u1" "blog") d)
           (bytesOf "0123") "connection reset").
  - repeat split. discriminate.
  - apply (@ResolvedInserted World handler alice "blog"
             (context (validated world0)) world0
             None "project not found" "p1" (Some blog)
             world0 (addProject world0 "u1" "blog")
             (addProject world0 "u1" "blog")).
    + left. reflexivity.
    + reflexivity.
    + reflexivity.
    + reflexivity.
  - reflexivity.
  - reflexivity.
Defined.

End Scenarios.

(** ** More on the upload handler *)

Section ValidateFacts.

Context {W : Type} {X : Externals W}.

Variable h : UploadAssetHandler W.

(** X1.  Whenever [Validate] returns a nil error, the session had a key,
    the identity store answered the lookup for that key with a named
    identity and a nil error, the feature check for "pgs" answered true,
    the upsert of the identity's bucket and the quota read for it
    succeeded, and the context is the former one with that bucket, that
    quota and that identity stored, in this order, the project slot being
    left as it was; the calls made are the identity lookup, the feature
    check, the upsert and the quota read, followed by the two log lines.
    With a named bucket this is the state [Write] asks for. *)
Theorem Validate_success (s s' : State W) :
  Validate h s = (Returns None, s') ->
  exists k u b q w1 w2 w3,
    KeyText (session s) = (k, None)
    /\ FindUserForKey (DBPool h) (ssh.User (session s)) k (world s)
       = ((Some u, None), w1)
    /\ db.Name u <> ""
    /\ HasFeatureForUser (DBPool h) (db.ID u) "pgs" w1 = (true, w2)
    /\ UpsertBucket (Storage h) (GetAssetBucketName (db.ID u)) w2
       = ((b, None), w3)
    /\ GetBucketQuota (Storage h) b w3 = ((q, None), world s')
    /\ context s'
       = SetValue
           (SetValue (SetValue (context s) ctxBucketKey (VBucket b))
                     ctxBucketQuotaKey (VQuota q))
           ctxUserKey (VUser (Some u))
    /\ trace s'
       = (trace s
          ++ [EvFindUserForKey (ssh.User (session s)) k;
              EvHasFeatureForUser (db.ID u) "pgs";
              EvUpsertBucket (GetAssetBucketName (db.ID u));
              EvGetBucketQuota b;
              EvInfof "(%s) bucket size is current (%d bytes)"
                      [LStr (db.Name u); LNum q];
              EvInfof "(%s) attempting to upload files to (%s)"
                      [LStr (db.Name u); LStr (Space (Cfg h))]])%list
    /\ session s' = session s
    /\ (storage.Name b <> "" -> Validated (context s') u b q).
Proof.
  intros H. unfold Validate in H. unfold_monad.
  split_cases H; finish_run H.
  repeat match goal with
         | Hb : negb ?b = false |- _ =>
             destruct b; [clear Hb | discriminate Hb]
         end.
  do 7 eexists.
  split; [reflexivity|]. split; [eassumption|].
  split; [apply String.eqb_neq; eassumption|].
  split; [eassumption|]. split; [eassumption|]. split; [eassumption|].
  split; [reflexivity|].
  split; [now rewrite <- !app_assoc|].
  split; [reflexivity|].
  intros Hb. unfold Validated. cbn. auto.
Qed.

(** X2.  The errors of the storage backend are handed on as they are: a
    failed upsert returns the backend's error with the context untouched
    and without reading the quota; a failed quota read returns the
    backend's error after the upserted bucket has been stored. *)
Theorem Validate_storage_errors (s : State W) (k : string) (u : db.User)
  (w1 w2 w3 : W) (b : storage.Bucket) (uerr : option error) :
  KeyText (session s) = (k, None) ->
  FindUserForKey (DBPool h) (ssh.User (session s)) k (world s)
  = ((Some u, None), w1) ->
  db.Name u <> "" ->
  HasFeatureForUser (DBPool h) (db.ID u) "pgs" w1 = (true, w2) ->
  UpsertBucket (Storage h) (GetAssetBucketName (db.ID u)) w2
  = ((b, uerr), w3) ->
  (forall e,
      uerr = Some e ->
      Validate h s
      = (Returns (Some e),
         {| session := session s; context := context s; world := w3;
            trace := (trace s
                      ++ [EvFindUserForKey (ssh.User (session s)) k;
                          EvHasFeatureForUser (db.ID u) "pgs";
                          EvUpsertBucket (GetAssetBucketName (db.ID u))])%list
         |}))
  /\ (forall q e w4,
         uerr = None ->
         GetBucketQuota (Storage h) b w3 = ((q, Some e), w4) ->
         Validate h s
         = (Returns (Some e),
            {| session := session s;
               context := SetValue (context s) ctxBucketKey (VBucket b);
               world := w4;
               trace := (trace s
                         ++ [EvFindUserForKey (ssh.User (session s)) k;
                             EvHasFeatureForUser (db.ID u) "pgs";
                             EvUpsertBucket (GetAssetBucketName (db.ID u));
                             EvGetBucketQuota b])%list |})).
Proof.
  intros Hk Hf Hn Hhas Hup. apply String.eqb_neq in Hn.
  split.
  - intros e ->. unfold Validate. unfold_monad.
    rewrite Hk; step. rewrite Hf; step. rewrite Hn; step.
    rewrite Hhas; cbn [negb]; step. rewrite Hup; step.
    now rewrite <- !app_assoc.
  - intros q e w4 -> Hq. unfold Validate. unfold_monad.
    rewrite Hk; step. rewrite Hf; step. rewrite Hn; step.
    rewrite Hhas; cbn [negb]; step. rewrite Hup; step. rewrite Hq; step.
    now rewrite <- !app_assoc.
Qed.

(** X3.  [Validate] panics in one case only: the identity store answers
    with a nil identity and a nil error, and reading the name dereferences
    the nil pointer.  The panic comes right after the lookup: the context
    is untouched and no other call has been made. *)
Theorem Validate_panics_on_nil_user_only (s s' : State W) (msg : string) :
  Validate h s = (Panics msg, s') ->
  exists k,
    KeyText (session s) = (k, None)
    /\ fst (FindUserForKey (DBPool h) (ssh.User (session s)) k (world s))
       = (None, None)
    /\ context s' = context s
    /\ trace s'
       = (trace s ++ [EvFindUserForKey (ssh.User (session s)) k])%list.
Proof.
  intros H. unfold Validate in H. unfold_monad.
  split_cases H; finish_run H.
  match goal with
  | K : KeyText (session s) = (?k, None) |- _ => exists k
  end.
  split; [first [reflexivity | assumption]|].
  split; [|split; reflexivity].
  first [ reflexivity
        | match goal with
          | F : FindUserForKey _ _ _ _ = _ |- _ => now rewrite F
          end ].
Qed.

End ValidateFacts.

Section ReadListFacts.

Context {W : Type} {X : Externals W}.

Variable h : UploadAssetHandler W.

(** X4.  On a session holding an identity, [Read] looks the bucket up by
    the identity's bucket name (the cached bucket plays no part).  A
    failed lookup is returned as it is, without asking for the file; a
    failed fetch is returned as it is, with no metadata; otherwise the
    answer is the stored contents together with metadata built from the
    entry alone: the base name of its path, not a directory, and the size
    and modification time the caller put into the entry. *)
Theorem Read_result (entry : utils.FileEntry) (s : State W) (u : db.User)
  (bucket : storage.Bucket) (gerr : option error) (w1 : W) :
  cachedUser (context s) = Some u ->
  GetBucket (Storage h) (GetAssetBucketName (db.ID u)) (world s)
  = ((bucket, gerr), w1) ->
  (forall e,
      gerr = Some e ->
      Read h entry s
      = (Returns (None, None, Some e),
         {| session := session s; context := context s; world := w1;
            trace := (trace s
                      ++ [EvGetBucket (GetAssetBucketName (db.ID u))])%list
         |}))
  /\ (forall contents ferr w2,
         gerr = None ->
         GetFile (Storage h) bucket (GetAssetFileName entry) w1
         = ((contents, ferr), w2) ->
         Read h entry s
         = (Returns match ferr with
                    | Some e => (None, None, Some e)
                    | None => (Some (fileInfoOf entry), Some contents, None)
                    end,
            {| session := session s; context := context s; world := w2;
               trace := (trace s
                         ++ [EvGetBucket (GetAssetBucketName (db.ID u));
                             EvGetFile bucket (GetAssetFileName entry)])%list
            |})).
Proof.
  intros Hu Hg. unfold cachedUser in Hu.
  destruct (slotUser (context s)) as [[[u'|]| | |]|] eqn:E; try discriminate.
  inversion Hu; subst u'. clear Hu.
  split.
  - intros e ->. unfold Read. unfold_monad. rewrite E; step.
    rewrite Hg; step. reflexivity.
  - intros contents ferr w2 -> Hf. unfold Read. unfold_monad.
    rewrite E; step. rewrite Hg; step. rewrite Hf; step.
    destruct ferr; now rewrite <- app_assoc.
Qed.

(** X5.  [Read] and [List] only read: whatever they answer, the context
    and the session are what they were, and the calls they add to the
    trace are a bucket lookup, possibly followed by one file fetch
    ([Read]) or one non-recursive file listing of the path given
    ([List]); nothing else is called. *)
Theorem Read_List_read_only (s : State W) :
  (forall entry r s',
      Read h entry s = (r, s') ->
      context s' = context s /\ session s' = session s
      /\ (trace s' = trace s
          \/ (exists n, trace s' = (trace s ++ [EvGetBucket n])%list)
          \/ (exists n b,
                 trace s'
                 = (trace s ++ [EvGetBucket n;
                                EvGetFile b (GetAssetFileName entry)])%list)))
  /\ (forall fpath r s',
         List h fpath s = (r, s') ->
         context s' = context s /\ session s' = session s
         /\ (trace s' = trace s
             \/ (exists n, trace s' = (trace s ++ [EvGetBucket n])%list)
             \/ (exists n b,
                    trace s'
                    = (trace s ++ [EvGetBucket n;
                                   EvListFiles b fpath false])%list))).
Proof.
  split.
  - intros entry r s' H. unfold Read in H. unfold_monad.
    split_cases H; finish_run H;
      (split; [reflexivity|]); (split; [reflexivity|]);
      first [ left; reflexivity
            | right; left; eexists; reflexivity
            | right; right; do 2 eexists; now rewrite <- app_assoc ].
  - intros fpath r s' H. unfold List in H. unfold_monad.
    split_cases H; finish_run H;
      (split; [reflexivity|]); (split; [reflexivity|]);
      first [ left; reflexivity
            | right; left; eexists; reflexivity
            | right; right; do 2 eexists; now rewrite <- app_assoc ].
Qed.

(** X6.  On a session with no identity cached, [Read] and [List] do not
    return an error either: like [Write], they panic in [getUser], with
    the state untouched. *)
Theorem Read_List_unvalidated_panic (s : State W) :
  slotUser (context s) = None ->
  (forall entry,
      Read h entry s = (Panics "interface conversion: not *db.User", s))
  /\ (forall fpath,
         List h fpath s = (Panics "interface conversion: not *db.User", s)).
Proof.
  intros Hu. split.
  - intros entry. unfold Read. unfold_monad. now rewrite Hu.
  - intros fpath. unfold List. unfold_monad. now rewrite Hu.
Qed.

Lemma Base_root_test (fpath : string) :
  String.eqb (GoFilepath.Base fpath) "" || String.eqb (GoFilepath.Base fpath) "."
  = String.eqb (GoFilepath.Base fpath) ".".
Proof.
  replace (String.eqb (GoFilepath.Base fpath) "") with false; [reflexivity|].
  symmetry. apply String.eqb_neq. apply GoFacts.Base_nonempty.
Qed.

(** X7.  On a session holding an identity, [List] answers every path in
    one of three ways.  A failed bucket lookup is returned as it is, with
    an empty listing and without listing files.  A path whose base name is
    "." gets one synthetic directory entry, and its name is "." (the base
    name is never empty, so the name "/" is never given), its size 0 and
    its modification time the zero time, which the literal leaves.  Every
    other path, the root "/" among them, gets what the backend's
    non-recursive listing of that very path returns, listing and error
    alike. *)
Theorem List_result (fpath : string) (s : State W) (u : db.User)
  (bucket : storage.Bucket) (gerr : option error) (w1 : W) :
  cachedUser (context s) = Some u ->
  GetBucket (Storage h) (GetAssetBucketName (db.ID u)) (world s)
  = ((bucket, gerr), w1) ->
  let s1 :=
    {| session := session s; context := context s; world := w1;
       trace := (trace s ++ [EvGetBucket (GetAssetBucketName (db.ID u))])%list
    |} in
  (forall e, gerr = Some e -> List h fpath s = (Returns ([], Some e), s1))
  /\ (gerr = None ->
      GoFilepath.Base fpath = "." ->
      List h fpath s
      = (Returns ([{| utils.FName := "."; utils.FIsDir := true;
                      utils.FSize := 0;
                      utils.FModTime := -62135596800 |}], None), s1))
  /\ (forall fileList lerr w2,
         gerr = None ->
         GoFilepath.Base fpath <> "." ->
         ListFiles (Storage h) bucket fpath false w1
         = ((fileList, lerr), w2) ->
         List h fpath s
         = (Returns (fileList, lerr),
            {| session := session s; context := context s; world := w2;
               trace := (trace s
                         ++ [EvGetBucket (GetAssetBucketName (db.ID u));
                             EvListFiles bucket fpath false])%list |})).
Proof.
  intros Hu Hg s1. unfold cachedUser in Hu.
  destruct (slotUser (context s)) as [[[u'|]| | |]|] eqn:E; try discriminate.
  inversion Hu; subst u'. clear Hu.
  split; [|split].
  - intros e ->. unfold List. unfold_monad. rewrite E; step.
    rewrite Hg; step. reflexivity.
  - intros -> Hb. unfold List. unfold_monad. rewrite E; step.
    rewrite Hg; step. rewrite Hb. reflexivity.
  - intros fileList lerr w2 -> Hb Hl. unfold List. unfold_monad.
    rewrite E; step. rewrite Hg; step.
    rewrite Base_root_test.
    apply String.eqb_neq in Hb. rewrite Hb; step.
    rewrite Hl; step. destruct lerr; now rewrite <- app_assoc.
Qed.

End ReadListFacts.

Section WriteFacts.

Context {W : Type} {X : Externals W}.

Variable h : UploadAssetHandler W.

(** X8.  When the cached bucket has an empty name, [Write] returns the
    error "bucket not set ..." without calling anything and without
    touching the session; the entry it was given has already been resized:
    its size is the number of bytes kept from the stream, its other fields
    are what they were. *)
Theorem Write_bucket_unnamed (entry : utils.FileEntry) (s : State W)
  (u : db.User) (b : storage.Bucket) :
  cachedUser (context s) = Some u ->
  slotBucket (context s) = Some (VBucket b) ->
  storage.Name b = "" ->
  Write h entry s
  = (Returns ({| utils.Filepath := utils.Filepath entry;
                 utils.Mode := utils.Mode entry;
                 utils.Size := Z.of_nat (length (origTextOf entry));
                 utils.Mtime := utils.Mtime entry;
                 utils.Reader := utils.Reader entry |},
              ("", Some "bucket not set on `ssh.Context()` for connection")),
     s).
Proof.
  intros Hu Hb Hn. unfold cachedUser in Hu.
  destruct (slotUser (context s)) as [[[u'|]| | |]|] eqn:E; try discriminate.
  unfold Write. unfold_monad. rewrite E; step. rewrite Hb; step.
  rewrite Hn. reflexivity.
Qed.

(** X9.  When the storage write fails on a validated session whose project
    is cached or resolves, [Write] returns that error with an empty URL;
    the project resolved on the way stays cached. *)
Theorem Write_storage_write_fails (entry : utils.FileEntry) (s : State W)
  (u : db.User) (b : storage.Bucket) (q : Z) (evs : list Event)
  (c1 : SshContext) (w1 w2 : W) (e : error) :
  Validated (context s) u b q ->
  ProjectResolved h u (shared.GetProjectName entry) (context s) (world s)
                  evs c1 w1 ->
  let e' := utils.withSize entry (Z.of_nat (length (origTextOf entry))) in
  let d := {| FileEntry := e'; Text := origTextOf entry; User := Some u;
              Bucket := b; BucketQuota := q |} in
  writeAsset d w1 = (Some e, w2) ->
  Write h entry s
  = (Returns (e', ("", Some e)),
     {| session := session s; context := c1; world := w2;
        trace := (trace s ++ evs ++ [EvWriteAsset d])%list |}).
Proof.
  intros (Hu & Hb & Hn & Hq) Hres e' d Hw. subst e' d.
  apply String.eqb_neq in Hn.
  unfold Write. unfold_monad. unfold GoIO.binarySize.
  rewrite !GetProjectName_withSize.
  destruct s as [sess c w tr]. cbn [context world trace session] in *.
  rewrite Hu; step. rewrite Hb; step. rewrite Hn; step.
  inversion Hres as [p Hp | project wa wb Hs Hf Hup
                    | p0 e0 id project wa wb wc Hs Hf Hi Hf2]; subst.
  - unfold cachedProject in Hp.
    destruct (slotProject c1) as [[| | |[p'|]]|]; try discriminate.
    step. rewrite Hq; step. rewrite Hw; step. reflexivity.
  - destruct Hs as [Hs|Hs]; rewrite Hs; step; rewrite Hf; step;
      rewrite Hup; step; rewrite Hq; step; rewrite Hw; step;
      now rewrite <- !app_assoc.
  - destruct Hs as [Hs|Hs]; rewrite Hs; step; rewrite Hf; step;
      rewrite Hi; step; rewrite Hf2; step; rewrite Hq; step;
      rewrite Hw; step; now rewrite <- !app_assoc.
Qed.

End WriteFacts.

(** Case analysis as [split_cases], leaving contradictory cases to the
    caller. *)
Ltac split_cases_fast H :=
  repeat (cbv beta iota in H;
          cbn [context world trace session SetValue
               slotUser slotBucket slotBucketQuota slotProject] in H;
          match type of H with
          | context [match ?x with _ => _ end] =>
              lazymatch x with
              | context [match _ with _ => _ end] => fail
              | _ => destruct x eqn:?; try discriminate
              end
          end);
  cbv beta iota in H.

(** Split what a run added to the trace into the calls before a storage
    write and the storage write. *)
Ltac pick_events :=
  lazymatch goal with
  | |- exists pc wc, (_ ++ [?a; ?b; ?c; EvWriteAsset ?d])%list = _ /\ _ =>
      exists [a; b; c], [EvWriteAsset d]
  | |- exists pc wc, (_ ++ [?a; ?b; EvWriteAsset ?d])%list = _ /\ _ =>
      exists [a; b], [EvWriteAsset d]
  | |- exists pc wc, (_ ++ [EvWriteAsset ?d])%list = _ /\ _ =>
      exists [], [EvWriteAsset d]
  | |- exists pc wc, (_ ++ ?l)%list = _ /\ _ => exists l, []
  | |- exists pc wc, _ = _ /\ _ => exists [], []
  end.

Section WriteTraceFacts.

Context {W : Type} {X : Externals W}.

Variable h : UploadAssetHandler W.

(** What one [Write] adds to the trace: calls to the project store first,
    then at most one storage write, whose payload is built from the entry
    and from the identity, bucket and quota found in the context. *)
Lemma Write_events (entry : utils.FileEntry) (s s' : State W) r :
  Write h entry s = (r, s') ->
  exists pc wc,
    trace s' = (trace s ++ pc ++ wc)%list
    /\ session s' = session s
    /\ (pc = []
        \/ exists u,
            cachedUser (context s) = Some u
            /\ let n := shared.GetProjectName entry in
               pc = [EvFindProjectByName (db.ID u) n;
                     EvUpdateProject (db.ID u) n]
               \/ pc = [EvFindProjectByName (db.ID u) n;
                        EvInsertProject (db.ID u) n n]
               \/ pc = [EvFindProjectByName (db.ID u) n;
                        EvInsertProject (db.ID u) n n;
                        EvFindProjectByName (db.ID u) n])
    /\ (wc = []
        \/ exists u b q,
            slotUser (context s) = Some (VUser (Some u))
            /\ slotBucket (context s) = Some (VBucket b)
            /\ slotBucketQuota (context s) = Some (VQuota q)
            /\ wc = [EvWriteAsset
                       {| FileEntry :=
                            utils.withSize entry
                              (Z.of_nat (length (origTextOf entry)));
                          Text := origTextOf entry; User := Some u;
                          Bucket := b; BucketQuota := q |}]).
Proof.
  intros H. unfold Write in H. unfold_monad.
  split_cases_fast H; finish_run H; rewrite ?GetProjectName_withSize;
    rewrite <- ?app_assoc; cbn [app]; pick_events;
    (split; [first [reflexivity | now rewrite app_nil_r]|]);
    (split; [reflexivity|]); split.
  all: try (left; reflexivity).
  all: try (right;
            match goal with
            | U : slotUser (context _) = Some (VUser (Some ?u)) |- _ =>
                exists u; split;
                [ unfold cachedUser; now rewrite U
                | cbv zeta;
                  first [ left; reflexivity
                        | right; left; reflexivity
                        | right; right; reflexivity ] ]
            end).
  all: right;
    match goal with
    | U : slotUser (context _) = Some (VUser (Some ?u)),
      B : slotBucket (context _) = Some (VBucket ?b),
      Q : slotBucketQuota (context _) = Some (VQuota ?q) |- _ =>
        exists u, b, q; repeat split; reflexivity
    end.
Qed.

(** X10.  One [Write] calls nothing but the project store and the storage
    write: at most three calls to the project store, then at most one
    storage write, which is the last call.  A successful [Write] has made
    the storage write; an error is never returned together with a URL; and
    a panic comes before any storage write. *)
Theorem Write_calls (entry : utils.FileEntry) (s s' : State W) r :
  Write h entry s = (r, s') ->
  exists pc wc,
    trace s' = (trace s ++ pc ++ wc)%list
    /\ (length pc <= 3)%nat
    /\ forallb isProjectStoreCall pc = true
    /\ (wc = [] \/ exists d, wc = [EvWriteAsset d])
    /\ (forall e' url, r = Returns (e', (url, None)) -> wc <> [])
    /\ (forall e' url err, r = Returns (e', (url, Some err)) -> url = "")
    /\ (forall msg, r = Panics msg -> wc = []).
Proof.
  intros H. unfold Write in H. unfold_monad.
  split_cases_fast H; finish_run H;
    rewrite <- ?app_assoc; cbn [app]; pick_events;
    (split; [first [reflexivity | now rewrite app_nil_r]|]);
    (split; [cbn [length]; lia|]);
    (split; [reflexivity|]);
    (split; [first [left; reflexivity | right; eexists; reflexivity]|]);
    (split; [intros; first [discriminate | congruence]|]);
    (split; [intros ? ? ? E; first [discriminate E | now inversion E]|]);
    intros; first [discriminate | reflexivity].
Qed.

Lemma Write_keeps_identity (entry : utils.FileEntry) (s s' : State W) r :
  Write h entry s = (r, s') ->
  slotUser (context s') = slotUser (context s)
  /\ slotBucket (context s') = slotBucket (context s)
  /\ slotBucketQuota (context s') = slotBucketQuota (context s).
Proof.
  intros H. unfold Write in H. unfold_monad.
  split_cases_fast H; finish_run H; repeat split;
    first [reflexivity | assumption | symmetry; assumption].
Qed.

(** X11.  Over all the writes of a validated session, every payload handed
    to the storage write carries the identity, the bucket and the quota
    snapshot that were cached when the session started writing: the quota
    is not read again between two files. *)
Theorem Writes_payloads (entries : list utils.FileEntry) :
  forall (s s' : State W) (u : db.User) (b : storage.Bucket) (q : Z) r,
    Validated (context s) u b q ->
    Writes h entries s = (r, s') ->
    exists evs,
      trace s' = (trace s ++ evs)%list
      /\ Forall (fun e =>
                   forall d, writtenPayload e = Some d ->
                             User d = Some u /\ Bucket d = b
                             /\ BucketQuota d = q) evs.
Proof.
  induction entries as [|entry rest IH]; intros s s' u b q r Hv H.
  - inversion H; subst. exists []. split; [now rewrite app_nil_r|constructor].
  - cbn [Writes] in H. unfold bind at 1 in H.
    destruct (Write h entry s) as [r1 s1] eqn:E1.
    destruct (Write_events entry s E1) as (pc & wc & Ht & _ & Hpc & Hwc).
    destruct (Write_keeps_identity entry s E1) as (Ku & Kb & Kq).
    assert (Hone : Forall (fun e =>
                   forall d, writtenPayload e = Some d ->
                             User d = Some u /\ Bucket d = b
                             /\ BucketQuota d = q) (pc ++ wc)).
    { apply Forall_app. split.
      - cbv zeta in Hpc.
        destruct Hpc as [ -> | (u' & _ & [ -> | [ -> | -> ] ]) ];
          repeat (apply Forall_cons; [intros d Hd; discriminate Hd|]);
          apply Forall_nil.
      - destruct Hwc as [ -> | (u' & b' & q' & Hu' & Hb' & Hq' & ->) ];
          [constructor|].
        destruct Hv as (Hu & Hb & _ & Hq).
        rewrite Hu in Hu'. rewrite Hb in Hb'. rewrite Hq in Hq'.
        inversion Hu'; inversion Hb'; inversion Hq'; subst.
        apply Forall_cons; [|apply Forall_nil].
        intros d Hd. inversion Hd; subst. cbn. auto. }
    destruct r1 as [a|msg].
    + unfold bind at 1 in H.
      destruct (Writes h rest s1) as [r2 s2] eqn:E2.
      assert (Hv1 : Validated (context s1) u b q).
      { destruct Hv as (Hu & Hb & Hn & Hq). unfold Validated.
        rewrite Ku, Kb, Kq. auto. }
      destruct (IH s1 s2 u b q r2 Hv1 E2) as (evs2 & Ht2 & Hall2).
      assert (s' = s2) by (destruct r2; inversion H; reflexivity).
      subst s'. exists ((pc ++ wc) ++ evs2)%list. split.
      * rewrite Ht2, Ht. now rewrite <- !app_assoc.
      * apply Forall_app. now split.
    + inversion H; subst. exists (pc ++ wc)%list. split; assumption.
Qed.

(** X12.  On a validated session with no project cached, every [Write]
    begins with a lookup of the project named after its own entry: a
    resolution that failed for one file is tried again for the next. *)
Theorem Write_starts_with_lookup (entry : utils.FileEntry) (s s' : State W)
  (u : db.User) (b : storage.Bucket) (q : Z) r :
  Validated (context s) u b q ->
  slotProject (context s) = None
  \/ slotProject (context s) = Some (VProject None) ->
  Write h entry s = (r, s') ->
  exists rest,
    trace s'
    = (trace s
       ++ EvFindProjectByName (db.ID u) (shared.GetProjectName entry)
       :: rest)%list.
Proof.
  intros (Hu & Hb & Hn & Hq) Hp H. apply String.eqb_neq in Hn.
  unfold Write in H. unfold_monad.
  rewrite Hu in H; cbv beta iota in H.
  cbn [context world trace session] in H.
  rewrite Hb in H; cbv beta iota in H. rewrite Hn in H.
  destruct Hp as [Hp|Hp]; rewrite Hp in H;
    split_cases_fast H; finish_run H; rewrite ?GetProjectName_withSize;
    rewrite <- ?app_assoc; cbn [app]; eexists; reflexivity.
Qed.

Ltac destruct_typed_context s Hinv :=
  let sess := fresh "sess" in
  let su := fresh "su" in
  let sb := fresh "sb" in
  let sq := fresh "sq" in
  let sp := fresh "sp" in
  destruct s as [sess [su sb sq sp] ? ?];
  unfold slotsTyped in Hinv;
  cbn [context slotUser slotBucket slotBucketQuota slotProject] in *;
  destruct su as [[[?|]| | |]|]; try discriminate Hinv;
  destruct sb as [[| | |]|]; try discriminate Hinv;
  destruct sq as [[| | |]|]; try discriminate Hinv;
  destruct sp as [[| | |]|]; try discriminate Hinv.

(** X13.  The handler keeps the slots of the context well typed: if every
    slot is unset or holds a value of the type its getter asserts, the
    identity is not a nil pointer and comes with a bucket and a quota
    snapshot, then the same holds after [Validate], [Write], [Read] and
    [List], whatever they answer; and it holds on a fresh connection. *)
Theorem slotsTyped_preserved (s : State W) :
  slotsTyped emptyContext = true
  /\ (slotsTyped (context s) = true ->
      (forall r s', Validate h s = (r, s') -> slotsTyped (context s') = true)
      /\ (forall entry r s',
             Write h entry s = (r, s') -> slotsTyped (context s') = true)
      /\ (forall entry r s',
             Read h entry s = (r, s') -> slotsTyped (context s') = true)
      /\ (forall fpath r s',
             List h fpath s = (r, s') -> slotsTyped (context s') = true)).
Proof.
  split; [reflexivity|]. intros Hinv.
  split; [|split; [|split]].
  - intros r s' H. destruct_typed_context s Hinv;
      unfold Validate in H; unfold_monad;
      split_cases_fast H; finish_run H; reflexivity.
  - intros entry r s' H. destruct_typed_context s Hinv;
      unfold Write in H; unfold_monad;
      split_cases_fast H; finish_run H; reflexivity.
  - intros entry r s' H. destruct_typed_context s Hinv;
      unfold Read in H; unfold_monad;
      split_cases_fast H; finish_run H; reflexivity.
  - intros fpath r s' H. destruct_typed_context s Hinv;
      unfold List in H; unfold_monad;
      split_cases_fast H; finish_run H; reflexivity.
Qed.

(** X14.  On a session whose slots are well typed and which holds an
    identity, none of the four type assertions fails and the state is left
    alone: [getUser] returns the identity with a nil error, [getBucket]
    the cached bucket (with its error exactly when the bucket has no
    name), [getBucketQuota] the cached snapshot, and [getProject] the
    cached project or nil. *)
Theorem typed_getters_return (s : State W) (u : db.User) :
  slotsTyped (context s) = true ->
  cachedUser (context s) = Some u ->
  getUser s = (Returns (Some u, None), s)
  /\ (exists b,
         slotBucket (context s) = Some (VBucket b)
         /\ getBucket s
            = (Returns
                 (b, if String.eqb (storage.Name b) ""
                     then Some "bucket not set on `ssh.Context()` for connection"
                     else None),
               s))
  /\ (exists q,
         slotBucketQuota (context s) = Some (VQuota q)
         /\ getBucketQuota s = (Returns q, s))
  /\ getProject s = (Returns (cachedProject (context s)), s).
Proof.
  intros Hinv Hu. unfold cachedUser in Hu. unfold cachedProject.
  unfold slotsTyped in Hinv. unfold_monad.
  destruct s as [sess [su sb sq sp] w tr].
  cbn [context slotUser slotBucket slotBucketQuota slotProject] in *.
  destruct su as [[[u'|]|?|?|?]|]; try discriminate Hu.
  inversion Hu; subst u'.
  destruct sb as [[?|b|?|?]|]; cbn in Hinv; try discriminate Hinv;
    destruct sq as [[?|?|q|?]|]; cbn in Hinv; try discriminate Hinv;
    destruct sp as [[?|?|?|p]|]; cbn in Hinv; try discriminate Hinv.
  all: split; [reflexivity|]; split;
    [ eexists; split; [reflexivity|];
      now destruct (String.eqb (storage.Name _) "")
    | split; [eexists; split; reflexivity | reflexivity] ].
Qed.

End WriteTraceFacts.

(** ** More on the listing middleware *)

Section SortFacts.

Lemma ascending_head (x : string) (l : list string) (y : string) :
  Spec.ascending (x :: l) -> In y (x :: l) -> String.leb x y = true.
Proof.
  unfold Spec.ascending. intros Hs Hin. inversion Hs as [|? ? _ Hall]; subst.
  destruct Hin as [<-|Hin].
  - destruct (String.leb_total x x); assumption.
  - rewrite Forall_forall in Hall. now apply Hall.
Qed.

(** Two ascending lists with the same elements are the same list. *)
Lemma ascending_unique (l : list string) :
  forall l', Spec.ascending l -> Spec.ascending l' -> Permutation l l' ->
             l = l'.
Proof.
  induction l as [|x l IH]; intros l' Hs Hs' Hp.
  - apply Permutation_nil in Hp. now subst.
  - destruct l' as [|y l'].
    + symmetry in Hp. apply Permutation_nil in Hp. discriminate.
    + assert (Hxy : String.leb x y = true).
      { apply (ascending_head Hs).
        apply (Permutation_in _ (Permutation_sym Hp)). now left. }
      assert (Hyx : String.leb y x = true).
      { apply (ascending_head Hs').
        apply (Permutation_in _ Hp). now left. }
      pose proof (String.leb_antisym _ _ Hxy Hyx) as E. subst y.
      f_equal. apply IH.
      * unfold Spec.ascending in *. now inversion Hs.
      * unfold Spec.ascending in *. now inversion Hs'.
      * now apply Permutation_cons_inv with x.
Qed.

Lemma Strings_of_permutation (l l' : list string) :
  Permutation l l' -> GoSort.Strings l = GoSort.Strings l'.
Proof.
  intros Hp. apply ascending_unique; try apply GoFacts.Strings_sorted.
  rewrite !GoFacts.Strings_perm. exact Hp.
Qed.

End SortFacts.

Section MiddlewareMore.

Context {W : Type} {X : Externals W}.

Variable writeHandler : CopyFromClientHandler W.

(** What the middleware sends once [Validate] and [List] have succeeded. *)
Lemma Middleware_sends (sshHandler : M W unit) (s s1 s2 : State W)
  (fileList : list utils.VirtualFile) :
  Spec.startsWithListCommand (ssh.Command (session s)) = true ->
  hValidate writeHandler s = (Returns None, s1) ->
  hList writeHandler "/" s1 = (Returns (fileList, None), s2) ->
  exists s3 rest,
    Middleware writeHandler sshHandler s = (Returns tt, s3)
    /\ trace s3
       = (trace s2
          ++ EvSessionWrite
               (list_byte_of_string
                  (String.concat newline
                     (GoSort.Strings (map Spec.listedName fileList))))
          :: rest)%list
    /\ context s3 = context s2.
Proof.
  intros Hc Hv Hl. unfold Middleware. unfold_monad.
  rewrite command_guard, Hc. cbn [negb]. rewrite Hv; step. rewrite Hl; step.
  rewrite names_loop. unfold GoStrings.Join.
  destruct (sessionWrite _ (world s2)) as [[e|] w3] eqn:Ew; step.
  - destruct (ErrorHandler e w3) as [[] w4]. step.
    do 2 eexists. split; [reflexivity|]. split; [|reflexivity].
    cbn [trace]. rewrite <- app_assoc. reflexivity.
  - do 2 eexists. split; [reflexivity|]. split; reflexivity.
Qed.

(** X15.  The middleware reports the first failure and stops: when
    [Validate] fails, the error goes to the error handler and [List] is
    not called; when [List] fails, its error goes to the error handler;
    in both cases nothing is written to the session and the next handler
    is not run. *)
Theorem Middleware_reports_errors (sshHandler : M W unit) (s : State W) :
  Spec.startsWithListCommand (ssh.Command (session s)) = true ->
  (forall e s1,
      hValidate writeHandler s = (Returns (Some e), s1) ->
      Middleware writeHandler sshHandler s
      = (Returns tt,
         {| session := session s1; context := context s1;
            world := snd (ErrorHandler e (world s1));
            trace := (trace s1 ++ [EvErrorHandler e])%list |}))
  /\ (forall s1 fileList e s2,
         hValidate writeHandler s = (Returns None, s1) ->
         hList writeHandler "/" s1 = (Returns (fileList, Some e), s2) ->
         Middleware writeHandler sshHandler s
         = (Returns tt,
            {| session := session s2; context := context s2;
               world := snd (ErrorHandler e (world s2));
               trace := (trace s2 ++ [EvErrorHandler e])%list |})).
Proof.
  intros Hc. split.
  - intros e s1 Hv. unfold Middleware. unfold_monad.
    rewrite command_guard, Hc. cbn [negb]. rewrite Hv; step.
    destruct (ErrorHandler e (world s1)) as [[] w']. reflexivity.
  - intros s1 fileList e s2 Hv Hl. unfold Middleware. unfold_monad.
    rewrite command_guard, Hc. cbn [negb]. rewrite Hv; step.
    rewrite Hl; step.
    destruct (ErrorHandler e (world s2)) as [[] w']. reflexivity.
Qed.

(** X16.  What is written to the session does not depend on the order in
    which the backend lists the files: two listings with the same entries
    give the same bytes. *)
Theorem Middleware_order_independent (sshHandler : M W unit)
  (s s1 s2 t t1 t2 : State W) (fileList fileList' : list utils.VirtualFile) :
  Spec.startsWithListCommand (ssh.Command (session s)) = true ->
  hValidate writeHandler s = (Returns None, s1) ->
  hList writeHandler "/" s1 = (Returns (fileList, None), s2) ->
  Spec.startsWithListCommand (ssh.Command (session t)) = true ->
  hValidate writeHandler t = (Returns None, t1) ->
  hList writeHandler "/" t1 = (Returns (fileList', None), t2) ->
  Permutation fileList fileList' ->
  exists p s3 t3 rs rt,
    Middleware writeHandler sshHandler s = (Returns tt, s3)
    /\ trace s3 = (trace s2 ++ EvSessionWrite p :: rs)%list
    /\ Middleware writeHandler sshHandler t = (Returns tt, t3)
    /\ trace t3 = (trace t2 ++ EvSessionWrite p :: rt)%list.
Proof.
  intros Hc Hv Hl Hc' Hv' Hl' Hp.
  destruct (Middleware_sends sshHandler s Hc Hv Hl) as (s3 & rs & Hm & Ht & _).
  destruct (Middleware_sends sshHandler t Hc' Hv' Hl')
    as (t3 & rt & Hm' & Ht' & _).
  rewrite <- (Strings_of_permutation
                (Permutation_map Spec.listedName Hp)) in Ht'.
  eexists. exists s3, t3, rs, rt. repeat split; eassumption.
Qed.

End MiddlewareMore.

Section ListingFacts.

Context {W : Type} {X : Externals W}.

Variable h : UploadAssetHandler W.

(** X17.  The listing command on a connection with a key, a named and
    entitled identity and a working backend: the session is validated
    (bucket, quota snapshot and identity cached), the files of the root
    path "/" are listed once, not recursively, from the bucket found under
    the identity's bucket name, and their names are written to the
    session, normalised and sorted; the next handler is not run. *)
Theorem ls_lists_root (sshHandler : M W unit) (s : State W) (k : string)
  (u : db.User) (b bucket : storage.Bucket) (q : Z)
  (fileList : list utils.VirtualFile) (w1 w2 w3 w4 w5 w6 w7 : W) :
  Spec.startsWithListCommand (ssh.Command (session s)) = true ->
  KeyText (session s) = (k, None) ->
  FindUserForKey (DBPool h) (ssh.User (session s)) k (world s)
  = ((Some u, None), w1) ->
  db.Name u <> "" ->
  HasFeatureForUser (DBPool h) (db.ID u) "pgs" w1 = (true, w2) ->
  UpsertBucket (Storage h) (GetAssetBucketName (db.ID u)) w2
  = ((b, None), w3) ->
  GetBucketQuota (Storage h) b w3 = ((q, None), w4) ->
  GetBucket (Storage h) (GetAssetBucketName (db.ID u)) w4
  = ((bucket, None), w5) ->
  ListFiles (Storage h) bucket "/" false w5 = ((fileList, None), w6) ->
  let p := list_byte_of_string
             (String.concat newline
                (GoSort.Strings (map Spec.listedName fileList))) in
  sessionWrite p w6 = (None, w7) ->
  Middleware (asCopyFromClientHandler h) sshHandler s
  = (Returns tt,
     {| session := session s;
        context :=
          SetValue
            (SetValue (SetValue (context s) ctxBucketKey (VBucket b))
                      ctxBucketQuotaKey (VQuota q))
            ctxUserKey (VUser (Some u));
        world := w7;
        trace :=
          (trace s
           ++ [EvFindUserForKey (ssh.User (session s)) k;
               EvHasFeatureForUser (db.ID u) "pgs";
               EvUpsertBucket (GetAssetBucketName (db.ID u));
               EvGetBucketQuota b;
               EvInfof "(%s) bucket size is current (%d bytes)"
                       [LStr (db.Name u); LNum q];
               EvInfof "(%s) attempting to upload files to (%s)"
                       [LStr (db.Name u); LStr (Space (Cfg h))];
               EvGetBucket (GetAssetBucketName (db.ID u));
               EvListFiles bucket "/" false;
               EvSessionWrite p])%list |}).
Proof.
  intros Hc Hk Hf Hn Hhas Hup Hq Hg Hl p Hw. subst p.
  apply String.eqb_neq in Hn.
  unfold Middleware. unfold_monad.
  rewrite command_guard, Hc. cbn [negb].
  cbn [hValidate hList asCopyFromClientHandler].
  unfold Validate. unfold_monad.
  rewrite Hk; step. rewrite Hf; step. rewrite Hn; step.
  rewrite Hhas; cbn [negb]; step. rewrite Hup; step. rewrite Hq; step.
  unfold List. unfold_monad. step.
  change (GoFilepath.Base "/") with "/".
  rewrite Hg; step.
  change (String.eqb "/" "" || String.eqb "/" ".") with false; step.
  rewrite Hl; step. rewrite names_loop. unfold GoStrings.Join.
  rewrite Hw; step. now rewrite <- !app_assoc.
Qed.

(** X18.  When the context holds a nil identity pointer, [getUser] reports
    "user not set ..." and each operation returns that error at once, with
    the state untouched: [Write] returns the entry as it was given,
    without resizing it, [Read] returns no metadata and no contents, and
    [List] an empty listing. *)
Theorem nil_identity_is_reported (s : State W) :
  slotUser (context s) = Some (VUser None) ->
  let e := "user not set on `ssh.Context()` for connection" in
  (forall entry, Write h entry s = (Returns (entry, ("", Some e)), s))
  /\ (forall entry, Read h entry s = (Returns (None, None, Some e), s))
  /\ (forall fpath, List h fpath s = (Returns ([], Some e), s)).
Proof.
  intros Hu e. subst e. split; [|split].
  - intros entry. unfold Write. unfold_monad. now rewrite Hu.
  - intros entry. unfold Read. unfold_monad. now rewrite Hu.
  - intros fpath. unfold List. unfold_monad. now rewrite Hu.
Qed.

End ListingFacts.

Section SessionFacts.

Context {W : Type} {X : Externals W}.

Variable h : UploadAssetHandler W.

Ltac destruct_slots s Hinv :=
  let sess := fresh "sess" in
  let su := fresh "su" in
  let sb := fresh "sb" in
  let sq := fresh "sq" in
  let sp := fresh "sp" in
  destruct s as [sess [su sb sq sp] ? ?];
  unfold slotsTyped in Hinv;
  cbn [context slotUser slotBucket slotBucketQuota slotProject] in *;
  destruct su as [[[?|]| | |]|]; try discriminate Hinv;
  destruct sb as [[| | |]|]; try discriminate Hinv;
  destruct sq as [[| | |]|]; try discriminate Hinv;
  destruct sp as [[| | |]|]; try discriminate Hinv.

Lemma Write_keeps_typed (entry : utils.FileEntry) (s s' : State W) r :
  slotsTyped (context s) = true ->
  Write h entry s = (r, s') ->
  slotsTyped (context s') = true.
Proof.
  intros Hinv H. destruct_slots s Hinv;
    unfold Write in H; unfold_monad;
    split_cases_fast H; finish_run H; reflexivity.
Qed.

Lemma Writes_keep_session (entries : list utils.FileEntry) :
  forall (s s' : State W) r,
    slotsTyped (context s) = true ->
    Writes h entries s = (r, s') ->
    slotsTyped (context s') = true
    /\ slotUser (context s') = slotUser (context s)
    /\ slotBucket (context s') = slotBucket (context s)
    /\ slotBucketQuota (context s') = slotBucketQuota (context s).
Proof.
  induction entries as [|entry rest IH]; intros s s' r Hinv H.
  - inversion H; subst. auto.
  - cbn [Writes] in H. unfold bind at 1 in H.
    destruct (Write h entry s) as [r1 s1] eqn:E1.
    pose proof (Write_keeps_typed entry s Hinv E1) as Hinv1.
    destruct (Write_keeps_identity h entry s E1) as (Ku & Kb & Kq).
    destruct r1 as [a|msg].
    + unfold bind at 1 in H.
      destruct (Writes h rest s1) as [r2 s2] eqn:E2.
      destruct (IH s1 s2 r2 Hinv1 E2) as (Hi & Hu & Hb & Hq).
      assert (s' = s2) by (destruct r2; inversion H; reflexivity).
      subst s'. repeat split; congruence.
    + inversion H; subst. auto.
Qed.

(** X19.  What a successful [Validate] caches on a connection whose context
    is well typed, as that of a fresh connection is, outlives the writes
    of the session: after any number of files, whatever the writes
    returned, the identity, the bucket and the quota snapshot in the
    context are the ones [Validate] stored, the identity is still there,
    and the context is still well typed. *)
Theorem validated_session_keeps_identity (entries : list utils.FileEntry)
  (s s1 s2 : State W) r :
  slotsTyped (context s) = true ->
  Validate h s = (Returns None, s1) ->
  Writes h entries s1 = (r, s2) ->
  slotsTyped (context s2) = true
  /\ (exists u b q,
         slotUser (context s1) = Some (VUser (Some u))
         /\ slotBucket (context s1) = Some (VBucket b)
         /\ slotBucketQuota (context s1) = Some (VQuota q)
         /\ slotUser (context s2) = Some (VUser (Some u))
         /\ slotBucket (context s2) = Some (VBucket b)
         /\ slotBucketQuota (context s2) = Some (VQuota q)).
Proof.
  intros Hinv Hv Hw.
  assert (Hs1 : slotsTyped (context s1) = true
                /\ exists u b q,
                    slotUser (context s1) = Some (VUser (Some u))
                    /\ slotBucket (context s1) = Some (VBucket b)
                    /\ slotBucketQuota (context s1) = Some (VQuota q)).
  { destruct_slots s Hinv;
      unfold Validate in Hv; unfold_monad;
      split_cases_fast Hv; finish_run Hv;
      (split; [reflexivity | do 3 eexists; repeat split; reflexivity]). }
  destruct Hs1 as (Hinv1 & u & b & q & Hu & Hb & Hq).
  destruct (Writes_keep_session entries s1 Hinv1 Hw) as (Hi & Ku & Kb & Kq).
  split; [exact Hi|]. exists u, b, q.
  repeat split; congruence.
Qed.

End SessionFacts.

(** ** The further properties on the two small deployments *)

Module MoreScenarios.

Import Demo Script.

Lemma Validate_success_witness :
  exists k u b q w1 w2 w3,
    KeyText (session (Script.fresh (Some "key-alice") [] Script.good))
    = (k, None)
    /\ FindUserForKey (DBPool Script.handler) "alice" k Script.good
       = ((Some u, None), w1)
    /\ db.Name u <> ""
    /\ HasFeatureForUser (DBPool Script.handler) (db.ID u) "pgs" w1
       = (true, w2)
    /\ UpsertBucket (Storage Script.handler) (GetAssetBucketName (db.ID u)) w2
       = ((b, None), w3)
    /\ GetBucketQuota (Storage Script.handler) b w3
       = ((q, None), world (Script.validated Script.good))
    /\ context (Script.validated Script.good)
       = SetValue
           (SetValue (SetValue emptyContext ctxBucketKey (VBucket b))
                     ctxBucketQuotaKey (VQuota q))
           ctxUserKey (VUser (Some u))
    /\ trace (Script.validated Script.good)
       = ([]
          ++ [EvFindUserForKey "alice" k;
              EvHasFeatureForUser (db.ID u) "pgs";
              EvUpsertBucket (GetAssetBucketName (db.ID u));
              EvGetBucketQuota b;
              EvInfof "(%s) bucket size is current (%d bytes)"
                      [LStr (db.Name u); LNum q];
              EvInfof "(%s) attempting to upload files to (%s)"
                      [LStr (db.Name u); LStr "pgs"]])%list
    /\ session (Script.validated Script.good)
       = Demo.sessionOf (Some "key-alice") []
    /\ (storage.Name b <> "" ->
        Validated (context (Script.validated Script.good)) u b q).
Proof.
  apply (@Validate_success Script.World Script.externals Script.handler
           (Script.fresh (Some "key-alice") [] Script.good)
           (Script.validated Script.good)).
  reflexivity.
Defined.

Lemma Validate_storage_errors_witness :
  Validate Script.handler
    (Script.fresh (Some "key-alice") []
       (Script.withUpserted (Demo.bucket1, Some "storage down")))
  = (Returns (Some "storage down"),
     {| session := Demo.sessionOf (Some "key-alice") [];
        context := emptyContext;
        world := Script.withUpserted (Demo.bucket1, Some "storage down");
        trace := [EvFindUserForKey "alice" "key-alice";
                  EvHasFeatureForUser "u1" "pgs";
                  EvUpsertBucket "static-u1"] |})
  /\ Validate Script.handler
       (Script.fresh (Some "key-alice") []
          (Script.withQuota (0, Some "quota down")))
     = (Returns (Some "quota down"),
        {| session := Demo.sessionOf (Some "key-alice") [];
           context := SetValue emptyContext ctxBucketKey
                               (VBucket Demo.bucket1);
           world := Script.withQuota (0, Some "quota down");
           trace := [EvFindUserForKey "alice" "key-alice";
                     EvHasFeatureForUser "u1" "pgs";
                     EvUpsertBucket "static-u1";
                     EvGetBucketQuota Demo.bucket1] |}).
Proof.
  split.
  - apply (proj1
             (@Validate_storage_errors Script.World Script.externals
                Script.handler
                (Script.fresh (Some "key-alice") []
                   (Script.withUpserted (Demo.bucket1, Some "storage down")))
                "key-alice" Demo.alice
                (Script.withUpserted (Demo.bucket1, Some "storage down"))
                (Script.withUpserted (Demo.bucket1, Some "storage down"))
                (Script.withUpserted (Demo.bucket1, Some "storage down"))
                Demo.bucket1 (Some "storage down")
                eq_refl eq_refl ltac:(discriminate) eq_refl eq_refl)
             "storage down").
    reflexivity.
  - apply (proj2
             (@Validate_storage_errors Script.World Script.externals
                Script.handler
                (Script.fresh (Some "key-alice") []
                   (Script.withQuota (0, Some "quota down")))
                "key-alice" Demo.alice
                (Script.withQuota (0, Some "quota down"))
                (Script.withQuota (0, Some "quota down"))
                (Script.withQuota (0, Some "quota down"))
                Demo.bucket1 None
                eq_refl eq_refl ltac:(discriminate) eq_refl eq_refl)
             0 "quota down" (Script.withQuota (0, Some "quota down"))).
    + reflexivity.
    + reflexivity.
Defined.

Lemma Validate_panics_on_nil_user_only_witness :
  exists k,
    KeyText (session (Script.fresh (Some "key-alice") []
                        (Script.withUser (None, None))))
    = (k, None)
    /\ fst (FindUserForKey Script.pool "alice" k
              (Script.withUser (None, None)))
       = (None, None)
    /\ context (snd (Validate Script.handler
                       (Script.fresh (Some "key-alice") []
                          (Script.withUser (None, None)))))
       = emptyContext
    /\ trace (snd (Validate Script.handler
                     (Script.fresh (Some "key-alice") []
                        (Script.withUser (None, None)))))
       = ([] ++ [EvFindUserForKey "alice" k])%list.
Proof.
  apply (@Validate_panics_on_nil_user_only Script.World Script.externals
           Script.handler
           (Script.fresh (Some "key-alice") [] (Script.withUser (None, None)))
           (snd (Validate Script.handler
                   (Script.fresh (Some "key-alice") []
                      (Script.withUser (None, None)))))
           "invalid memory address or nil pointer dereference").
  reflexivity.
Defined.

(** The caller declares 999 bytes for [post1]; that is what [Read] says. *)
Lemma Read_result_witness :
  Read Script.handler Demo.post1 (Script.validated Script.good)
  = (Returns (Some {| utils.FName := "post1.md"; utils.FIsDir := false;
                      utils.FSize := 999; utils.FModTime := 0 |},
              Some (GoIO.RChunk (Demo.bytesOf "0123456789") GoIO.REOF),
              None),
     {| session := session (Script.validated Script.good);
        context := context (Script.validated Script.good);
        world := Script.good;
        trace := (trace (Script.validated Script.good)
                  ++ [EvGetBucket "static-u1";
                      EvGetFile Demo.bucket1 "/blog/post1.md"])%list |})
  /\ Read Script.handler Demo.post1
       (Script.validated (Script.withBucket (Demo.bucket1, Some "no bucket")))
     = (Returns (None, None, Some "no bucket"),
        {| session := session (Script.validated Script.good);
           context := context (Script.validated Script.good);
           world := Script.withBucket (Demo.bucket1, Some "no bucket");
           trace := (trace (Script.validated Script.good)
                     ++ [EvGetBucket "static-u1"])%list |}).
Proof.
  split.
  - apply (proj2
             (@Read_result Script.World Script.externals Script.handler
                Demo.post1 (Script.validated Script.good) Demo.alice
                Demo.bucket1 None Script.good eq_refl eq_refl)
             (GoIO.RChunk (Demo.bytesOf "0123456789") GoIO.REOF) None
             Script.good eq_refl eq_refl).
  - apply (proj1
             (@Read_result Script.World Script.externals Script.handler
                Demo.post1
                (Script.validated
                   (Script.withBucket (Demo.bucket1, Some "no bucket")))
                Demo.alice Demo.bucket1 (Some "no bucket")
                (Script.withBucket (Demo.bucket1, Some "no bucket"))
                eq_refl eq_refl)
             "no bucket" eq_refl).
Defined.

Lemma Read_List_read_only_witness :
  context (snd (Read Script.handler Demo.post1 (Script.validated Script.good)))
  = context (Script.validated Script.good)
  /\ context (snd (List Script.handler "/" (Script.validated Script.good)))
     = context (Script.validated Script.good).
Proof.
  split.
  - apply (proj1
             (@Read_List_read_only Script.World Script.externals
                Script.handler (Script.validated Script.good))
             Demo.post1
             (fst (Read Script.handler Demo.post1
                     (Script.validated Script.good)))
             (snd (Read Script.handler Demo.post1
                     (Script.validated Script.good)))).
    apply surjective_pairing.
  - apply (proj2
             (@Read_List_read_only Script.World Script.externals
                Script.handler (Script.validated Script.good))
             "/"
             (fst (List Script.handler "/" (Script.validated Script.good)))
             (snd (List Script.handler "/" (Script.validated Script.good)))).
    apply surjective_pairing.
Defined.

Lemma Read_List_unvalidated_panic_witness :
  (forall entry,
      Read Script.handler entry (Script.fresh None [] Script.good)
      = (Panics "interface conversion: not *db.User",
         Script.fresh None [] Script.good))
  /\ (forall fpath,
         List Script.handler fpath (Script.fresh None [] Script.good)
         = (Panics "interface conversion: not *db.User",
            Script.fresh None [] Script.good)).
Proof.
  apply (@Read_List_unvalidated_panic Script.World Script.externals
           Script.handler (Script.fresh None [] Script.good)).
  reflexivity.
Defined.

Lemma List_result_witness :
  List Script.handler "/blog/" (Script.validated Script.good)
  = (Returns (Demo.listing, None),
     {| session := session (Script.validated Script.good);
        context := context (Script.validated Script.good);
        world := Script.good;
        trace := (trace (Script.validated Script.good)
                  ++ [EvGetBucket "static-u1";
                      EvListFiles Demo.bucket1 "/blog/" false])%list |})
  /\ List Script.handler "/blog/." (Script.validated Script.good)
     = (Returns ([{| utils.FName := "."; utils.FIsDir := true;
                     utils.FSize := 0; utils.FModTime := -62135596800 |}],
                 None),
        {| session := session (Script.validated Script.good);
           context := context (Script.validated Script.good);
           world := Script.good;
           trace := (trace (Script.validated Script.good)
                     ++ [EvGetBucket "static-u1"])%list |}).
Proof.
  pose proof (@List_result Script.World Script.externals Script.handler
                "/blog/" (Script.validated Script.good) Demo.alice
                Demo.bucket1 None Script.good eq_refl eq_refl) as H1.
  pose proof (@List_result Script.World Script.externals Script.handler
                "/blog/." (Script.validated Script.good) Demo.alice
                Demo.bucket1 None Script.good eq_refl eq_refl) as H2.
  cbv zeta in H1, H2. split.
  - apply (proj2 (proj2 H1) Demo.listing None Script.good eq_refl).
    + discriminate.
    + reflexivity.
  - apply (proj1 (proj2 H2) eq_refl). reflexivity.
Defined.

Lemma Write_bucket_unnamed_witness :
  Write Script.handler Demo.post1
    (Script.validated (Script.withUpserted (Script.unnamed, None)))
  = (Returns ({| utils.Filepath := "/blog/post1.md"; utils.Mode := 420;
                 utils.Size := 10; utils.Mtime := 0;
                 utils.Reader :=
                   GoIO.RChunk (Demo.bytesOf "0123456789") GoIO.REOF |},
              ("", Some "bucket not set on `ssh.Context()` for connection")),
     Script.validated (Script.withUpserted (Script.unnamed, None))).
Proof.
  apply (@Write_bucket_unnamed Script.World Script.externals Script.handler
           Demo.post1
           (Script.validated (Script.withUpserted (Script.unnamed, None)))
           Demo.alice Script.unnamed).
  - reflexivity.
  - reflexivity.
  - reflexivity.
Defined.

Lemma Write_storage_write_fails_witness :
  Write Script.handler Demo.post1
    (Script.validated (Script.withWritten (Some "quota exceeded")))
  = (Returns (utils.withSize Demo.post1 10, ("", Some "quota exceeded")),
     {| session := Demo.sessionOf (Some "key-alice") [];
        context :=
          SetValue
            (context (Script.validated
                        (Script.withWritten (Some "quota exceeded"))))
            ctxProjectKey (VProject (Some Demo.blog));
        world := Script.withWritten (Some "quota exceeded");
        trace :=
          (trace (Script.validated
                    (Script.withWritten (Some "quota exceeded")))
           ++ [EvFindProjectByName "u1" "blog"; EvUpdateProject "u1" "blog"]
           ++ [EvWriteAsset
                 {| FileEntry := utils.withSize Demo.post1 10;
                    Text := Demo.bytesOf "0123456789";
                    User := Some Demo.alice; Bucket := Demo.bucket1;
                    BucketQuota := 42 |}])%list |}).
Proof.
  apply (@Write_storage_write_fails Script.World Script.externals
           Script.handler Demo.post1
           (Script.validated (Script.withWritten (Some "quota exceeded")))
           Demo.alice Demo.bucket1 42
           [EvFindProjectByName "u1" "blog"; EvUpdateProject "u1" "blog"]
           (SetValue
              (context (Script.validated
                          (Script.withWritten (Some "quota exceeded"))))
              ctxProjectKey (VProject (Some Demo.blog)))
           (Script.withWritten (Some "quota exceeded"))
           (Script.withWritten (Some "quota exceeded"))
           "quota exceeded").
  - repeat split. discriminate.
  - apply (@ResolvedUpdated Script.World Script.handler Demo.alice "blog"
             (context (Script.validated
                         (Script.withWritten (Some "quota exceeded"))))
             (Script.withWritten (Some "quota exceeded"))
             (Some Demo.blog)
             (Script.withWritten (Some "quota exceeded"))
             (Script.withWritten (Some "quota exceeded"))).
    + left. reflexivity.
    + reflexivity.
    + reflexivity.
  - reflexivity.
Defined.

Lemma Write_calls_witness :
  exists pc wc,
    trace (snd (Write Demo.handler Demo.post1 (Demo.validated Demo.world0)))
    = (trace (Demo.validated Demo.world0) ++ pc ++ wc)%list
    /\ (length pc <= 3)%nat
    /\ forallb isProjectStoreCall pc = true
    /\ (wc = [] \/ exists d, wc = [EvWriteAsset d])
    /\ (forall e' url,
           fst (Write Demo.handler Demo.post1 (Demo.validated Demo.world0))
           = Returns (e', (url, None)) -> wc <> [])
    /\ (forall e' url err,
           fst (Write Demo.handler Demo.post1 (Demo.validated Demo.world0))
           = Returns (e', (url, Some err)) -> url = "")
    /\ (forall msg,
           fst (Write Demo.handler Demo.post1 (Demo.validated Demo.world0))
           = Panics msg -> wc = []).
Proof.
  apply (@Write_calls Demo.World Demo.externals Demo.handler Demo.post1
           (Demo.validated Demo.world0)
           (snd (Write Demo.handler Demo.post1 (Demo.validated Demo.world0)))
           (fst (Write Demo.handler Demo.post1 (Demo.validated Demo.world0)))).
  apply surjective_pairing.
Defined.

(** Three files, thirteen bytes stored before the third: the quota handed
    to the storage write is still the one read by [Validate]. *)
Lemma Writes_payloads_witness :
  exists evs,
    trace (snd (Writes Demo.handler [Demo.post1; Demo.post2; Demo.other]
                       (Demo.validated Demo.world0)))
    = (trace (Demo.validated Demo.world0) ++ evs)%list
    /\ Forall (fun e =>
                 forall d, writtenPayload e = Some d ->
                           User d = Some Demo.alice /\ Bucket d = Demo.bucket1
                           /\ BucketQuota d = 0) evs.
Proof.
  apply (@Writes_payloads Demo.World Demo.externals Demo.handler
           [Demo.post1; Demo.post2; Demo.other]
           (Demo.validated Demo.world0)
           (snd (Writes Demo.handler [Demo.post1; Demo.post2; Demo.other]
                        (Demo.validated Demo.world0)))
           Demo.alice Demo.bucket1 0
           (fst (Writes Demo.handler [Demo.post1; Demo.post2; Demo.other]
                        (Demo.validated Demo.world0)))).
  - repeat split. discriminate.
  - apply surjective_pairing.
Defined.

(** The insert fails for [post1]; the write of [post2] looks the project
    up again. *)
Lemma Write_starts_with_lookup_witness :
  exists rest,
    trace (snd (Write Demo.handler Demo.post2
                  (snd (Write Demo.handler Demo.post1
                          (Demo.validated Demo.insertDown)))))
    = (trace (snd (Write Demo.handler Demo.post1
                     (Demo.validated Demo.insertDown)))
       ++ EvFindProjectByName "u1" (shared.GetProjectName Demo.post2)
       :: rest)%list.
Proof.
  apply (@Write_starts_with_lookup Demo.World Demo.externals Demo.handler
           Demo.post2
           (snd (Write Demo.handler Demo.post1
                   (Demo.validated Demo.insertDown)))
           (snd (Write Demo.handler Demo.post2
                   (snd (Write Demo.handler Demo.post1
                           (Demo.validated Demo.insertDown)))))
           Demo.alice Demo.bucket1 0
           (fst (Write Demo.handler Demo.post2
                   (snd (Write Demo.handler Demo.post1
                           (Demo.validated Demo.insertDown)))))).
  - repeat split. discriminate.
  - left. reflexivity.
  - apply surjective_pairing.
Defined.

Lemma slotsTyped_preserved_witness :
  slotsTyped (context (Demo.validated Demo.quotaDown)) = true
  /\ slotsTyped
       (context (snd (Write Demo.handler Demo.post1
                        (Demo.validated Demo.world0)))) = true.
Proof.
  split.
  - apply (proj1
             (proj2 (@slotsTyped_preserved Demo.World Demo.externals
                       Demo.handler
                       (Demo.fresh (Some "key-alice") [] Demo.quotaDown))
                    eq_refl)
             (fst (Validate Demo.handler
                     (Demo.fresh (Some "key-alice") [] Demo.quotaDown)))
             (Demo.validated Demo.quotaDown)).
    apply surjective_pairing.
  - apply (proj1
             (proj2
                (proj2 (@slotsTyped_preserved Demo.World Demo.externals
                          Demo.handler (Demo.validated Demo.world0))
                       eq_refl))
             Demo.post1
             (fst (Write Demo.handler Demo.post1
                     (Demo.validated Demo.world0)))
             (snd (Write Demo.handler Demo.post1
                     (Demo.validated Demo.world0)))).
    apply surjective_pairing.
Defined.

Lemma typed_getters_return_witness :
  getUser (Script.validated Script.good)
  = (Returns (Some Demo.alice, None), Script.validated Script.good)
  /\ (exists b,
         slotBucket (context (Script.validated Script.good))
         = Some (VBucket b)
         /\ getBucket (Script.validated Script.good)
            = (Returns
                 (b, if String.eqb (storage.Name b) ""
                     then Some "bucket not set on `ssh.Context()` for connection"
                     else None),
               Script.validated Script.good))
  /\ (exists q,
         slotBucketQuota (context (Script.validated Script.good))
         = Some (VQuota q)
         /\ getBucketQuota (Script.validated Script.good)
            = (Returns q, Script.validated Script.good))
  /\ getProject (Script.validated Script.good)
     = (Returns (cachedProject (context (Script.validated Script.good))),
        Script.validated Script.good).
Proof.
  apply (@typed_getters_return Script.World
           (Script.validated Script.good) Demo.alice).
  - reflexivity.
  - reflexivity.
Defined.

(** The listing command of an identity without the feature. *)
Lemma Middleware_reports_errors_witness :
  Middleware (asCopyFromClientHandler Script.handler) (panic "next handler")
    (Script.fresh (Some "key-alice") ["command"; "ls"]
       (Script.withFeature false))
  = (Returns tt,
     {| session := Demo.sessionOf (Some "key-alice") ["command"; "ls"];
        context := emptyContext;
        world := Script.withFeature false;
        trace := ([EvFindUserForKey "alice" "key-alice";
                   EvHasFeatureForUser "u1" "pgs"]
                  ++ [EvErrorHandler
                        "you do not have access to this service"])%list |}).
Proof.
  etransitivity.
  - apply (proj1
             (@Middleware_reports_errors Script.World Script.externals
                (asCopyFromClientHandler Script.handler) (panic "next handler")
                (Script.fresh (Some "key-alice") ["command"; "ls"]
                   (Script.withFeature false))
                eq_refl)
             "you do not have access to this service"
             (snd (Validate Script.handler
                     (Script.fresh (Some "key-alice") ["command"; "ls"]
                        (Script.withFeature false))))).
    reflexivity.
  - reflexivity.
Defined.

Lemma Middleware_order_independent_witness :
  let s := Script.fresh (Some "key-alice") ["command"; "ls"] Script.good in
  let t := Script.fresh (Some "key-alice") ["command"; "ls"]
             (Script.withListed (rev Demo.listing, None)) in
  let s2 := snd (List Script.handler "/" (snd (Validate Script.handler s))) in
  let t2 := snd (List Script.handler "/" (snd (Validate Script.handler t))) in
  exists p s3 t3 rs rt,
    Middleware (asCopyFromClientHandler Script.handler) (panic "next handler")
               s
    = (Returns tt, s3)
    /\ trace s3 = (trace s2 ++ EvSessionWrite p :: rs)%list
    /\ Middleware (asCopyFromClientHandler Script.handler)
                  (panic "next handler") t
       = (Returns tt, t3)
    /\ trace t3 = (trace t2 ++ EvSessionWrite p :: rt)%list.
Proof.
  intros s t s2 t2.
  apply (@Middleware_order_independent Script.World Script.externals
           (asCopyFromClientHandler Script.handler) (panic "next handler")
           s (snd (Validate Script.handler s)) s2
           t (snd (Validate Script.handler t)) t2
           Demo.listing (rev Demo.listing)).
  - reflexivity.
  - reflexivity.
  - reflexivity.
  - reflexivity.
  - reflexivity.
  - reflexivity.
  - apply Permutation_rev.
Defined.

Lemma ls_lists_root_witness :
  Middleware (asCopyFromClientHandler Script.handler) (panic "next handler")
    (Script.fresh (Some "key-alice") ["command"; "ls"] Script.good)
  = (Returns tt,
     {| session := Demo.sessionOf (Some "key-alice") ["command"; "ls"];
        context := context (Script.validated Script.good);
        world := Script.good;
        trace :=
          ([]
           ++ [EvFindUserForKey "alice" "key-alice";
               EvHasFeatureForUser "u1" "pgs";
               EvUpsertBucket "static-u1";
               EvGetBucketQuota Demo.bucket1;
               EvInfof "(%s) bucket size is current (%d bytes)"
                       [LStr "alice"; LNum 42];
               EvInfof "(%s) attempting to upload files to (%s)"
                       [LStr "alice"; LStr "pgs"];
               EvGetBucket "static-u1";
               EvListFiles Demo.bucket1 "/" false;
               EvSessionWrite
                 (Demo.bytesOf ("ab.txt" ++ newline ++ "assets/" ++ newline
                                ++ "blog/" ++ newline ++ "index.html"))])%list
     |}).
Proof.
  apply (@ls_lists_root Script.World Script.externals Script.handler
           (panic "next handler")
           (Script.fresh (Some "key-alice") ["command"; "ls"] Script.good)
           "key-alice" Demo.alice Demo.bucket1 Demo.bucket1 42 Demo.listing
           Script.good Script.good Script.good Script.good Script.good
           Script.good Script.good).
  - reflexivity.
  - reflexivity.
  - reflexivity.
  - discriminate.
  - reflexivity.
  - reflexivity.
  - reflexivity.
  - reflexivity.
  - reflexivity.
  - reflexivity.
Defined.

Lemma nil_identity_is_reported_witness :
  let s := {| session := Demo.sessionOf (Some "key-alice") [];
              context := SetValue emptyContext ctxUserKey (VUser None);
              world := Script.good; trace := [] |} in
  (forall entry,
      Write Script.handler entry s
      = (Returns (entry,
                  ("", Some "user not set on `ssh.Context()` for connection")),
         s))
  /\ (forall entry,
         Read Script.handler entry s
         = (Returns (None, None,
                     Some "user not set on `ssh.Context()` for connection"),
            s))
  /\ (forall fpath,
         List Script.handler fpath s
         = (Returns ([], Some "user not set on `ssh.Context()` for connection"),
            s)).
Proof.
  intros s.
  apply (@nil_identity_is_reported Script.World Script.externals
           Script.handler s).
  reflexivity.
Defined.

(** Two writes whose project insert is refused. *)
Lemma validated_session_keeps_identity_witness :
  let s := Demo.fresh (Some "key-alice") [] Demo.insertDown in
  let s1 := snd (Validate Demo.handler s) in
  let s2 := snd (Writes Demo.handler [Demo.post1; Demo.broken] s1) in
  slotsTyped (context s2) = true
  /\ (exists u b q,
         slotUser (context s1) = Some (VUser (Some u))
         /\ slotBucket (context s1) = Some (VBucket b)
         /\ slotBucketQuota (context s1) = Some (VQuota q)
         /\ slotUser (context s2) = Some (VUser (Some u))
         /\ slotBucket (context s2) = Some (VBucket b)
         /\ slotBucketQuota (context s2) = Some (VQuota q)).
Proof.
  intros s s1 s2.
  apply (@validated_session_keeps_identity Demo.World Demo.externals
           Demo.handler [Demo.post1; Demo.broken] s s1 s2
           (fst (Writes Demo.handler [Demo.post1; Demo.broken] s1))).
  - reflexivity.
  - reflexivity.
  - apply surjective_pairing.
Defined.

End MoreScenarios.
